(** * Low-power LED mesh node: sleep scheduling of [low_power_led.c]

    A shallow embedding of the application callbacks of
    [low_power_led.c] (mesh_app_init, mesh_low_power_led_lpn_sleep,
    wakeup_timer_cb, mesh_low_power_led_sleep_poll and the on/off status
    handler) as functions of a small state-and-output monad, followed by
    the properties of the sleep-permission state machine.

    The C globals [app_state] and [do_not_init_again] are the state; the
    calls into the SDK (timer, sleep, LED, trace) are recorded as the
    events a call emits, and what the SDK answers is an input. *)

From Stdlib Require Import ZArith List String Bool Lia.
Import ListNotations.
Local Open Scope Z_scope.

(* ================================================================== *)
(** ** Machine integers *)

Definition to_uint8 (z : Z) : Z := z mod 256.
Definition to_uint16 (z : Z) : Z := z mod 65536.
Definition to_uint32 (z : Z) : Z := z mod 4294967296.

Definition is_uint32 (z : Z) : Prop := 0 <= z < 4294967296.

(* ================================================================== *)
(** ** The build: preprocessor macros the source tests

    [None] is an undefined macro, [Some v] a macro defined with value
    [v]. [defined] is the preprocessor's [defined(X)], [nonzero] is a
    bare [#if X]. *)

Record build : Type := {
  LOW_POWER_NODE : option Z;
  CYW20835B1 : option Z;
  CYW20819A1 : option Z;
  CYW20820A1 : option Z;
  NETWORK_FILTER_SERVER_SUPPORTED : option Z
}.

Definition defined (m : option Z) : bool :=
  match m with Some _ => true | None => false end.

Definition nonzero (m : option Z) : bool :=
  match m with Some v => negb (v =? 0) | None => false end.

(** [#if defined(LOW_POWER_NODE) && (LOW_POWER_NODE == 1)] *)
Definition lpn_enabled (b : build) : bool :=
  defined (LOW_POWER_NODE b) &&
  match LOW_POWER_NODE b with Some v => v =? 1 | None => false end.

(* ================================================================== *)
(** ** SDK headers

    The constants come from the SDK headers ([wiced_sleep.h],
    [wiced_platform.h], [wiced_result.h], ...), which are not part of
    the application source: they are parameters of the model. *)

Record wiced_sdk : Type := {
  (* wiced_sleep_permission_type_t and the sleep-time ceiling *)
  WICED_SLEEP_NOT_ALLOWED : Z;
  WICED_SLEEP_ALLOWED_WITHOUT_SHUTDOWN : Z;
  WICED_SLEEP_ALLOWED_WITH_SHUTDOWN : Z;
  WICED_SLEEP_MAX_TIME_TO_SLEEP : Z;
  (* wiced_sleep_poll_type_t *)
  WICED_SLEEP_POLL_TIME_TO_SLEEP : Z;
  WICED_SLEEP_POLL_SLEEP_PERMISSION : Z;
  (* sleep configuration *)
  WICED_SLEEP_MODE_NO_TRANSPORT : Z;
  WICED_SLEEP_WAKE_SOURCE_GPIO : Z;
  WICED_SLEEP_WAKE_ACTIVE_HIGH : Z;
  WICED_GPIO_BUTTON_WAKE_MODE : Z;
  WICED_GPIO_PIN_BUTTON : Z;
  (* results *)
  WICED_SUCCESS : Z;
  WICED_BT_SUCCESS : Z;
  (* timers, LED, mesh models, advertising *)
  WICED_MILLI_SECONDS_TIMER : Z;
  LED_CONTROL_TYPE_ONOFF : Z;
  WICED_BT_MESH_ONOFF_STATUS : Z;
  APPEARANCE_GENERIC_TAG : Z;
  BTM_BLE_ADVERT_TYPE_NAME_COMPLETE : Z;
  BTM_BLE_ADVERT_TYPE_APPEARANCE : Z;
  (* SDK version and the base64 helper of the mesh library *)
  WICED_SDK_MAJOR_VER : Z;
  WICED_SDK_MINOR_VER : Z;
  WICED_SDK_REV_NUMBER : Z;
  WICED_SDK_BUILD_NUMBER : Z;
  wiced_bt_mesh_base64_encode_6bits : Z -> Z
}.

(** What the platform answers when the application calls into it. *)
Record platform : Type := {
  wiced_hal_mia_is_reset_reason_por : bool;
  wiced_hal_mia_is_reset_reason_hid_timeout : bool;
  wiced_hal_gpio_get_pin_interrupt_status : Z -> Z;
  wiced_sleep_configure_result : Z;
  wiced_sleep_enter_hid_off_result : Z -> Z -> Z -> Z
}.

(* ================================================================== *)
(** ** Application constants and state *)

Definition TRANSITION_INTERVAL : Z := 100.
Definition MESH_LOW_POWER_LED_ELEMENT_INDEX : Z := 0.

Definition MESH_LPN_STATE_NOT_IDLE : Z := 0.
Definition MESH_LPN_STATE_IDLE : Z := 1.

(** The application functions whose address the code hands to the SDK. *)
Inductive app_callback : Type :=
| cb_mesh_low_power_led_sleep_poll
| cb_wakeup_timer_cb
| cb_mesh_low_power_led_message_handler.

(** [wiced_sleep_config_t]; [None] is a NULL handler. *)
Record wiced_sleep_config_t : Type := {
  sleep_mode : Z;
  device_wake_mode : Z;
  device_wake_source : Z;
  device_wake_gpio_num : Z;
  host_wake_mode : Z;
  sleep_permit_handler : option app_callback;
  post_sleep_cback_handler : option app_callback
}.

(** Modelled from the spec: the platform timer facility behind
    [wiced_timer_t] ([wiced_timer.h] is not part of the sources). The
    spec's WakeTimer is a single-shot countdown
    [{ armed, remaining_duration }]: [timer_armed] is [Some d] while the
    countdown runs with duration [d] (milliseconds), [None] otherwise;
    [timer_created] records [wiced_init_timer]. *)
Record wiced_timer_t : Type := {
  timer_created : bool;
  timer_armed : option Z
}.

(** [mesh_low_power_led_t] of a low-power-node build. *)
Record mesh_low_power_led_t : Type := {
  present_onoff : Z;
  target_onoff : Z;
  lpn_sleep_config : wiced_sleep_config_t;
  lpn_wake_timer : wiced_timer_t;
  lpn_state : Z
}.

(** One element of the scan response data. *)
Inductive advert_data : Type :=
| adv_string (s : string)
| adv_bytes (l : list Z).

Record wiced_bt_ble_advert_elem_t : Type := {
  advert_type : Z;
  len : Z;
  p_data : advert_data
}.

(** The globals the application reads and writes. [cfg_device_name] and
    [cfg_appearance] are the two fields of the SDK's
    [wiced_bt_cfg_settings] the application assigns (the appearance is
    a 16-bit field). *)
Record world : Type := {
  app_state : mesh_low_power_led_t;
  do_not_init_again : bool;
  mesh_prop_fw_version : list Z;
  cfg_device_name : string;
  cfg_appearance : Z
}.

(** Calls into the SDK, in the order the application makes them. *)
Inductive event : Type :=
| EvTrace (fmt : string) (args : list Z)
| EvStopTimer
| EvStartTimer (timeout : Z)
| EvInitTimer (cb : app_callback) (arg : Z) (type : Z)
| EvSleepConfigure (cfg : wiced_sleep_config_t)
| EvEnterHidOff (wakeup_time : Z) (wake_gpio : Z) (wake_level : Z)
| EvLedControlInit (type : Z)
| EvLedControlSetOnoff (onoff : Z)
| EvSetRawScanResponseData (num_elem : Z) (elems : list wiced_bt_ble_advert_elem_t)
| EvNetworkFilterInit
| EvPowerOnoffServerInit (element_idx : Z) (cb : app_callback)
    (interval : Z) (is_provisioned : bool).

(** [mesh_low_power_led_t app_state = { 0 };] *)
Definition sleep_config_zero : wiced_sleep_config_t :=
  {| sleep_mode := 0; device_wake_mode := 0; device_wake_source := 0;
     device_wake_gpio_num := 0; host_wake_mode := 0;
     sleep_permit_handler := None; post_sleep_cback_handler := None |}.

Definition timer_zero : wiced_timer_t :=
  {| timer_created := false; timer_armed := None |}.

Definition app_state_zero : mesh_low_power_led_t :=
  {| present_onoff := 0; target_onoff := 0;
     lpn_sleep_config := sleep_config_zero;
     lpn_wake_timer := timer_zero;
     lpn_state := 0 |}.

(** ['0','6','.','0','2','.','0','5'] *)
Definition fw_version_initial : list Z := [48; 54; 46; 48; 50; 46; 48; 53].

(** A world right after the C run time has set up the globals. The two
    SDK settings are whatever the SDK configuration holds. *)
Definition boot_world (name : string) (appearance : Z) : world :=
  {| app_state := app_state_zero;
     do_not_init_again := false;
     mesh_prop_fw_version := fw_version_initial;
     cfg_device_name := name;
     cfg_appearance := appearance |}.

(* ================================================================== *)
(** ** State-and-output monad *)

Definition M (A : Type) : Type := world -> A * world * list event.

Definition mret {A : Type} (a : A) : M A := fun w => (a, w, []).

Definition bind {A B : Type} (m : M A) (k : A -> M B) : M B :=
  fun w =>
    let '(a, w1, e1) := m w in
    let '(r, w2, e2) := k a w1 in
    (r, w2, e1 ++ e2).

Declare Scope lpn_scope.
Delimit Scope lpn_scope with lpn.
Notation "x <- m ;; k" := (bind m (fun x => k))
  (at level 61, m at next level, right associativity) : lpn_scope.
Notation "m ;; k" := (bind m (fun _ => k))
  (at level 61, right associativity) : lpn_scope.
Local Open Scope lpn_scope.

Definition result {A : Type} (m : M A) (w : world) : A := fst (fst (m w)).
Definition final {A : Type} (m : M A) (w : world) : world := snd (fst (m w)).
Definition emitted {A : Type} (m : M A) (w : world) : list event := snd (m w).

Definition get : M world := fun w => (w, w, []).
Definition emit (e : event) : M unit := fun w => (tt, w, [e]).
Definition when (c : bool) (m : M unit) : M unit := if c then m else mret tt.

(** Field updates of the globals. *)
Definition with_app_state (a : mesh_low_power_led_t) (w : world) : world :=
  {| app_state := a;
     do_not_init_again := do_not_init_again w;
     mesh_prop_fw_version := mesh_prop_fw_version w;
     cfg_device_name := cfg_device_name w;
     cfg_appearance := cfg_appearance w |}.

Definition with_lpn_state (v : Z) (a : mesh_low_power_led_t) : mesh_low_power_led_t :=
  {| present_onoff := present_onoff a; target_onoff := target_onoff a;
     lpn_sleep_config := lpn_sleep_config a;
     lpn_wake_timer := lpn_wake_timer a;
     lpn_state := v |}.

Definition with_lpn_wake_timer (t : wiced_timer_t) (a : mesh_low_power_led_t)
  : mesh_low_power_led_t :=
  {| present_onoff := present_onoff a; target_onoff := target_onoff a;
     lpn_sleep_config := lpn_sleep_config a;
     lpn_wake_timer := t;
     lpn_state := lpn_state a |}.

Definition with_lpn_sleep_config (c : wiced_sleep_config_t) (a : mesh_low_power_led_t)
  : mesh_low_power_led_t :=
  {| present_onoff := present_onoff a; target_onoff := target_onoff a;
     lpn_sleep_config := c;
     lpn_wake_timer := lpn_wake_timer a;
     lpn_state := lpn_state a |}.

Definition modify_app_state (f : mesh_low_power_led_t -> mesh_low_power_led_t) : M unit :=
  fun w => (tt, with_app_state (f (app_state w)) w, []).

Definition set_do_not_init_again (v : bool) : M unit :=
  fun w => (tt, {| app_state := app_state w;
                   do_not_init_again := v;
                   mesh_prop_fw_version := mesh_prop_fw_version w;
                   cfg_device_name := cfg_device_name w;
                   cfg_appearance := cfg_appearance w |}, []).

Definition set_mesh_prop_fw_version (v : list Z) : M unit :=
  fun w => (tt, {| app_state := app_state w;
                   do_not_init_again := do_not_init_again w;
                   mesh_prop_fw_version := v;
                   cfg_device_name := cfg_device_name w;
                   cfg_appearance := cfg_appearance w |}, []).

Definition set_cfg_device_name (s : string) : M unit :=
  fun w => (tt, {| app_state := app_state w;
                   do_not_init_again := do_not_init_again w;
                   mesh_prop_fw_version := mesh_prop_fw_version w;
                   cfg_device_name := s;
                   cfg_appearance := cfg_appearance w |}, []).

Definition set_cfg_appearance (v : Z) : M unit :=
  fun w => (tt, {| app_state := app_state w;
                   do_not_init_again := do_not_init_again w;
                   mesh_prop_fw_version := mesh_prop_fw_version w;
                   cfg_device_name := cfg_device_name w;
                   cfg_appearance := v |}, []).

(* ================================================================== *)
(** ** SDK calls *)

Definition WICED_BT_TRACE (fmt : string) (args : list Z) : M unit :=
  emit (EvTrace fmt args).

(** Modelled from the spec: the platform timer facility
    (start/stop/rearm a single countdown). Stopping disarms the
    countdown. *)
Definition wiced_stop_timer : M unit :=
  emit EvStopTimer ;;
  modify_app_state (fun a =>
    with_lpn_wake_timer
      {| timer_created := timer_created (lpn_wake_timer a); timer_armed := None |} a).

(** Modelled from the spec: starting arms the single countdown with
    [timeout], replacing whatever it held. *)
Definition wiced_start_timer (timeout : Z) : M unit :=
  emit (EvStartTimer timeout) ;;
  modify_app_state (fun a =>
    with_lpn_wake_timer
      {| timer_created := timer_created (lpn_wake_timer a);
         timer_armed := Some timeout |} a).

(** Modelled from the spec: the timer is created once at device
    initialisation; a created timer is not running. *)
Definition wiced_init_timer (cb : app_callback) (arg type : Z) : M unit :=
  emit (EvInitTimer cb arg type) ;;
  modify_app_state (fun a =>
    with_lpn_wake_timer {| timer_created := true; timer_armed := None |} a).

Definition wiced_sleep_configure (env : platform) : M Z :=
  w <- get ;;
  emit (EvSleepConfigure (lpn_sleep_config (app_state w))) ;;
  mret (wiced_sleep_configure_result env).

(** On success the real device powers down inside this call; the model
    returns the platform's answer in both cases. *)
Definition wiced_sleep_enter_hid_off (env : platform)
    (wakeup_time wake_gpio wake_level : Z) : M Z :=
  emit (EvEnterHidOff wakeup_time wake_gpio wake_level) ;;
  mret (wiced_sleep_enter_hid_off_result env wakeup_time wake_gpio wake_level).

Definition led_control_init (type : Z) : M unit := emit (EvLedControlInit type).
Definition led_control_set_onoff (onoff : Z) : M unit :=
  emit (EvLedControlSetOnoff onoff).

Definition wiced_bt_mesh_set_raw_scan_response_data (num_elem : Z)
    (elems : list wiced_bt_ble_advert_elem_t) : M unit :=
  emit (EvSetRawScanResponseData num_elem elems).

Definition wiced_bt_mesh_network_filter_init : M unit := emit EvNetworkFilterInit.

Definition wiced_bt_mesh_model_power_onoff_server_init (element_idx : Z)
    (cb : app_callback) (interval : Z) (is_provisioned : bool) : M unit :=
  emit (EvPowerOnoffServerInit element_idx cb interval is_provisioned).

(* ================================================================== *)
(** ** The application callbacks *)

Section Application.

Variable sdk : wiced_sdk.
Variable b : build.

Local Open Scope string_scope.
Local Open Scope Z_scope.
Local Open Scope lpn_scope.

(** The reset-reason diagnostics at the head of [mesh_app_init]. *)
Definition trace_start_reason (env : platform) : M unit :=
  if wiced_hal_mia_is_reset_reason_por env then
    WICED_BT_TRACE "start reason: reset\n" []
  else if nonzero (CYW20819A1 b) && wiced_hal_mia_is_reset_reason_hid_timeout env then
    WICED_BT_TRACE "Wake from HID off: timed wake\n" []
  else
    WICED_BT_TRACE "Wake from HID off, interrupt:%d\n"
      [wiced_hal_gpio_get_pin_interrupt_status env (WICED_GPIO_PIN_BUTTON sdk)].

(** The scan response data of an unprovisioned device: complete name and
    appearance (two bytes, little endian). *)
Definition scan_response_data (name : string) (appearance : Z)
  : list wiced_bt_ble_advert_elem_t :=
  [ {| advert_type := BTM_BLE_ADVERT_TYPE_NAME_COMPLETE sdk;
       len := to_uint16 (Z.of_nat (String.length name));
       p_data := adv_string name |};
    {| advert_type := BTM_BLE_ADVERT_TYPE_APPEARANCE sdk;
       len := 2;
       p_data := adv_bytes [to_uint8 appearance; to_uint8 (Z.shiftr appearance 8)] |} ].

(** [mesh_prop_fw_version[0..7]] as [mesh_app_init] overwrites it. *)
Definition fw_version : list Z :=
  [ to_uint8 (0x30 + Z.quot (WICED_SDK_MAJOR_VER sdk) 10);
    to_uint8 (0x30 + Z.rem (WICED_SDK_MAJOR_VER sdk) 10);
    to_uint8 (0x30 + Z.quot (WICED_SDK_MINOR_VER sdk) 10);
    to_uint8 (0x30 + Z.rem (WICED_SDK_MINOR_VER sdk) 10);
    to_uint8 (0x30 + Z.quot (WICED_SDK_REV_NUMBER sdk) 10);
    to_uint8 (0x30 + Z.rem (WICED_SDK_REV_NUMBER sdk) 10);
    to_uint8 (wiced_bt_mesh_base64_encode_6bits sdk
      (Z.land (to_uint8 (Z.shiftr (WICED_SDK_BUILD_NUMBER sdk) 6)) 0x3f));
    to_uint8 (wiced_bt_mesh_base64_encode_6bits sdk
      (Z.land (to_uint8 (WICED_SDK_BUILD_NUMBER sdk)) 0x3f)) ].

(** The sleep configuration written under "Configure to sleep as the
    device is idle now". [post_sleep_cback_handler] is assigned only on
    the two chips that have the field. *)
Definition configured_sleep_config (c : wiced_sleep_config_t) : wiced_sleep_config_t :=
  {| sleep_mode := WICED_SLEEP_MODE_NO_TRANSPORT sdk;
     device_wake_mode := WICED_GPIO_BUTTON_WAKE_MODE sdk;
     device_wake_source := WICED_SLEEP_WAKE_SOURCE_GPIO sdk;
     device_wake_gpio_num := WICED_GPIO_PIN_BUTTON sdk;
     host_wake_mode := WICED_SLEEP_WAKE_ACTIVE_HIGH sdk;
     sleep_permit_handler := Some cb_mesh_low_power_led_sleep_poll;
     post_sleep_cback_handler :=
       if defined (CYW20819A1 b) || defined (CYW20820A1 b) then None
       else post_sleep_cback_handler c |}.

(** The block of [mesh_app_init] behind [if (!do_not_init_again)]. *)
Definition init_once (env : platform) : M unit :=
  WICED_BT_TRACE "Init once \n" [] ;;
  modify_app_state (fun a =>
    with_lpn_sleep_config (configured_sleep_config (lpn_sleep_config a)) a) ;;
  r <- wiced_sleep_configure env ;;
  when (negb (WICED_BT_SUCCESS sdk =? r))
    (WICED_BT_TRACE "Sleep Configure failed\r\n" []) ;;
  wiced_init_timer cb_wakeup_timer_cb 0 (WICED_MILLI_SECONDS_TIMER sdk) ;;
  set_do_not_init_again true.

Definition mesh_app_init (env : platform) (is_provisioned : bool) : M unit :=
  trace_start_reason env ;;
  set_cfg_device_name (if lpn_enabled b then "Low Power LED" else "On/Off LED") ;;
  set_cfg_appearance (to_uint16 (APPEARANCE_GENERIC_TAG sdk)) ;;
  w <- get ;;
  when (negb is_provisioned)
    (wiced_bt_mesh_set_raw_scan_response_data 2
       (scan_response_data (cfg_device_name w) (cfg_appearance w))) ;;
  set_mesh_prop_fw_version fw_version ;;
  led_control_init (LED_CONTROL_TYPE_ONOFF sdk) ;;
  when (defined (NETWORK_FILTER_SERVER_SUPPORTED b) && is_provisioned)
    wiced_bt_mesh_network_filter_init ;;
  wiced_bt_mesh_model_power_onoff_server_init MESH_LOW_POWER_LED_ELEMENT_INDEX
    cb_mesh_low_power_led_message_handler TRANSITION_INTERVAL is_provisioned ;;
  when (lpn_enabled b)
    (w <- get ;;
     when (negb (do_not_init_again w)) (init_once env)).

(** [p_status->present_onoff] is the only field the handler reads. *)
Definition mesh_low_power_led_process_status (element_idx : Z)
    (status_present_onoff : Z) : M unit :=
  led_control_set_onoff status_present_onoff.

Definition mesh_low_power_led_message_handler (element_idx : Z) (ev : Z)
    (status_present_onoff : Z) : M unit :=
  if ev =? WICED_BT_MESH_ONOFF_STATUS sdk then
    mesh_low_power_led_process_status element_idx status_present_onoff
  else
    WICED_BT_TRACE "unknown\n" [].

(** "Put the board into sleep mode." The first branch is the
    [CYW20835B1] build (shut-down sleep), the second every other chip:
    ePDS sleep with the wake timer below two minutes, HID-off from
    there on. *)
Definition mesh_low_power_led_lpn_sleep (env : platform) (max_sleep_duration : Z)
  : M unit :=
  if defined (CYW20835B1 b) then
    when (negb (max_sleep_duration =? to_uint32 (WICED_SLEEP_MAX_TIME_TO_SLEEP sdk)))
      (wiced_stop_timer ;;
       wiced_start_timer max_sleep_duration) ;;
    WICED_BT_TRACE "Get ready to go into SDS, duration=%d\n\r" [max_sleep_duration] ;;
    modify_app_state (with_lpn_state MESH_LPN_STATE_IDLE)
  else
    if max_sleep_duration <? 120000 then
      wiced_stop_timer ;;
      wiced_start_timer max_sleep_duration ;;
      WICED_BT_TRACE "Get ready to go into ePDS sleep, duration=%d\n\r"
        [max_sleep_duration] ;;
      modify_app_state (with_lpn_state MESH_LPN_STATE_IDLE)
    else
      WICED_BT_TRACE "Entering HID-OFF for max_sleep_duration: %d\r\n"
        [max_sleep_duration] ;;
      r <- wiced_sleep_enter_hid_off env max_sleep_duration
             (WICED_GPIO_PIN_BUTTON sdk) 1 ;;
      when (negb (WICED_SUCCESS sdk =? r))
        (WICED_BT_TRACE "Entering HID-Off failed\n\r" []).

(** "wakeup timer callback" *)
Definition wakeup_timer_cb (arg : Z) : M unit :=
  WICED_BT_TRACE "ePDS wake up!!!\n" [] ;;
  modify_app_state (with_lpn_state MESH_LPN_STATE_NOT_IDLE) ;;
  wiced_stop_timer.

(** "Sleep permission polling time to be used by firmware". The result
    is a [uint32_t]: the SDK constants are converted on assignment. *)
Definition mesh_low_power_led_sleep_poll (type : Z) : M Z :=
  let ret := to_uint32 (WICED_SLEEP_NOT_ALLOWED sdk) in
  if type =? WICED_SLEEP_POLL_TIME_TO_SLEEP sdk then
    w <- get ;;
    if lpn_state (app_state w) =? MESH_LPN_STATE_NOT_IDLE then
      WICED_BT_TRACE "!" [] ;;
      mret (to_uint32 (WICED_SLEEP_NOT_ALLOWED sdk))
    else
      WICED_BT_TRACE "@\n" [] ;;
      mret (to_uint32 (WICED_SLEEP_MAX_TIME_TO_SLEEP sdk))
  else if type =? WICED_SLEEP_POLL_SLEEP_PERMISSION sdk then
    w <- get ;;
    if lpn_state (app_state w) =? MESH_LPN_STATE_IDLE then
      WICED_BT_TRACE "#\n" [] ;;
      mret (if defined (CYW20835B1 b)
            then to_uint32 (WICED_SLEEP_ALLOWED_WITH_SHUTDOWN sdk)
            else to_uint32 (WICED_SLEEP_ALLOWED_WITHOUT_SHUTDOWN sdk))
    else
      mret ret
  else
    mret ret.

(* ------------------------------------------------------------------ *)
(** *** The device as a transition system

    The mesh engine, the power manager and the timer call the
    application in any order; each call is one labelled step. *)

Inductive step : world -> list event -> world -> Prop :=
| step_init (env : platform) (is_provisioned : bool) (w : world) :
    step w (emitted (mesh_app_init env is_provisioned) w)
           (final (mesh_app_init env is_provisioned) w)
| step_message (element_idx ev onoff : Z) (w : world) :
    step w (emitted (mesh_low_power_led_message_handler element_idx ev onoff) w)
           (final (mesh_low_power_led_message_handler element_idx ev onoff) w)
| step_lpn_sleep (env : platform) (d : Z) (w : world) :
    is_uint32 d ->
    step w (emitted (mesh_low_power_led_lpn_sleep env d) w)
           (final (mesh_low_power_led_lpn_sleep env d) w)
| step_wakeup (arg : Z) (w : world) :
    step w (emitted (wakeup_timer_cb arg) w) (final (wakeup_timer_cb arg) w)
| step_sleep_poll (type : Z) (w : world) :
    step w (emitted (mesh_low_power_led_sleep_poll type) w)
           (final (mesh_low_power_led_sleep_poll type) w).

(** [steps w evs w']: the device gets from [w] to [w'] by some calls,
    emitting [evs]. *)
Inductive steps : world -> list event -> world -> Prop :=
| steps_refl (w : world) : steps w [] w
| steps_snoc (w w1 w2 : world) (e1 e2 : list event) :
    steps w e1 w1 -> step w1 e2 w2 -> steps w (e1 ++ e2) w2.

Definition reachable (w : world) : Prop :=
  exists name appearance evs, steps (boot_world name appearance) evs w.

End Application.

(* ================================================================== *)
(** ** Concrete SDK values and builds, to run the model *)

Definition base64_alphabet : list Z :=
  [ 65; 66; 67; 68; 69; 70; 71; 72; 73; 74; 75; 76; 77; 78; 79; 80;
    81; 82; 83; 84; 85; 86; 87; 88; 89; 90;
    97; 98; 99; 100; 101; 102; 103; 104; 105; 106; 107; 108; 109; 110;
    111; 112; 113; 114; 115; 116; 117; 118; 119; 120; 121; 122;
    48; 49; 50; 51; 52; 53; 54; 55; 56; 57; 43; 47 ].

(** The values of an SDK release for these chips: the permission
    enumeration counts from 0, the sleep-time ceiling is [~0]. *)
Definition sample_sdk : wiced_sdk :=
  {| WICED_SLEEP_NOT_ALLOWED := 0;
     WICED_SLEEP_ALLOWED_WITHOUT_SHUTDOWN := 1;
     WICED_SLEEP_ALLOWED_WITH_SHUTDOWN := 2;
     WICED_SLEEP_MAX_TIME_TO_SLEEP := Z.lnot 0;
     WICED_SLEEP_POLL_TIME_TO_SLEEP := 0;
     WICED_SLEEP_POLL_SLEEP_PERMISSION := 1;
     WICED_SLEEP_MODE_NO_TRANSPORT := 0;
     WICED_SLEEP_WAKE_SOURCE_GPIO := 4;
     WICED_SLEEP_WAKE_ACTIVE_HIGH := 1;
     WICED_GPIO_BUTTON_WAKE_MODE := 1;
     WICED_GPIO_PIN_BUTTON := 0;
     WICED_SUCCESS := 0;
     WICED_BT_SUCCESS := 0;
     WICED_MILLI_SECONDS_TIMER := 2;
     LED_CONTROL_TYPE_ONOFF := 0;
     WICED_BT_MESH_ONOFF_STATUS := 3;
     APPEARANCE_GENERIC_TAG := 512;
     BTM_BLE_ADVERT_TYPE_NAME_COMPLETE := 9;
     BTM_BLE_ADVERT_TYPE_APPEARANCE := 25;
     WICED_SDK_MAJOR_VER := 6;
     WICED_SDK_MINOR_VER := 2;
     WICED_SDK_REV_NUMBER := 5;
     WICED_SDK_BUILD_NUMBER := 0;
     wiced_bt_mesh_base64_encode_6bits :=
       fun v => nth (Z.to_nat v) base64_alphabet 0 |}.

(** A low-power-node build for a chip other than CYW20835B1, and one
    for CYW20835B1. *)
Definition lpn_build_20819 : build :=
  {| LOW_POWER_NODE := Some 1; CYW20835B1 := None; CYW20819A1 := Some 1;
     CYW20820A1 := None; NETWORK_FILTER_SERVER_SUPPORTED := None |}.

Definition lpn_build_20835 : build :=
  {| LOW_POWER_NODE := Some 1; CYW20835B1 := Some 1; CYW20819A1 := None;
     CYW20820A1 := None; NETWORK_FILTER_SERVER_SUPPORTED := None |}.

(** A platform that accepts every request, and one that refuses to
    enter HID-off. *)
Definition platform_accepts : platform :=
  {| wiced_hal_mia_is_reset_reason_por := true;
     wiced_hal_mia_is_reset_reason_hid_timeout := false;
     wiced_hal_gpio_get_pin_interrupt_status := fun _ => 0;
     wiced_sleep_configure_result := 0;
     wiced_sleep_enter_hid_off_result := fun _ _ _ => 0 |}.

Definition platform_rejects_hid_off : platform :=
  {| wiced_hal_mia_is_reset_reason_por := true;
     wiced_hal_mia_is_reset_reason_hid_timeout := false;
     wiced_hal_gpio_get_pin_interrupt_status := fun _ => 0;
     wiced_sleep_configure_result := 0;
     wiced_sleep_enter_hid_off_result := fun _ _ _ => 1 |}.

Definition boot : world := boot_world EmptyString 0.

(* ================================================================== *)
(** ** Vocabulary of the properties *)

(** The answers of the sleep poll must be told apart by the caller:
    "not allowed" differs from the ceiling and from both "allowed"
    values, after conversion to [uint32_t]. *)
Definition sleep_answers_distinct (sdk : wiced_sdk) : bool :=
  negb (to_uint32 (WICED_SLEEP_NOT_ALLOWED sdk)
        =? to_uint32 (WICED_SLEEP_MAX_TIME_TO_SLEEP sdk)) &&
  negb (to_uint32 (WICED_SLEEP_NOT_ALLOWED sdk)
        =? to_uint32 (WICED_SLEEP_ALLOWED_WITHOUT_SHUTDOWN sdk)) &&
  negb (to_uint32 (WICED_SLEEP_NOT_ALLOWED sdk)
        =? to_uint32 (WICED_SLEEP_ALLOWED_WITH_SHUTDOWN sdk)).

(** The two labels of the [switch] are different values. *)
Definition poll_types_distinct (sdk : wiced_sdk) : bool :=
  negb (WICED_SLEEP_POLL_TIME_TO_SLEEP sdk =? WICED_SLEEP_POLL_SLEEP_PERMISSION sdk).

(** [r] is one of the two "allowed" answers. *)
Definition is_allowed (sdk : wiced_sdk) (r : Z) : bool :=
  (r =? to_uint32 (WICED_SLEEP_ALLOWED_WITHOUT_SHUTDOWN sdk)) ||
  (r =? to_uint32 (WICED_SLEEP_ALLOWED_WITH_SHUTDOWN sdk)).

(** The "allowed" answer of a build: with shutdown on CYW20835B1,
    without on every other chip. *)
Definition allowed_variant (sdk : wiced_sdk) (b : build) : Z :=
  if defined (CYW20835B1 b)
  then to_uint32 (WICED_SLEEP_ALLOWED_WITH_SHUTDOWN sdk)
  else to_uint32 (WICED_SLEEP_ALLOWED_WITHOUT_SHUTDOWN sdk).

(** The answers the specification of the permission oracle tells
    apart, and the reading of a returned [uint32_t] in those words: a
    value that is none of the SDK's four constants is no answer. *)
Inductive spec_response : Type :=
| RespNotAllowed
| RespMaximumAllowed
| RespAllowed (with_shutdown : bool)
| RespNotSpecified.

Definition spec_response_of (sdk : wiced_sdk) (r : Z) : spec_response :=
  if r =? to_uint32 (WICED_SLEEP_NOT_ALLOWED sdk) then RespNotAllowed
  else if r =? to_uint32 (WICED_SLEEP_ALLOWED_WITHOUT_SHUTDOWN sdk) then RespAllowed false
  else if r =? to_uint32 (WICED_SLEEP_ALLOWED_WITH_SHUTDOWN sdk) then RespAllowed true
  else if r =? to_uint32 (WICED_SLEEP_MAX_TIME_TO_SLEEP sdk) then RespMaximumAllowed
  else RespNotSpecified.

Definition is_trace (e : event) : bool :=
  match e with EvTrace _ _ => true | _ => false end.

(** The two registrations of the one-time block of [mesh_app_init]. *)
Definition is_registration (e : event) : bool :=
  match e with
  | EvSleepConfigure _ => true
  | EvInitTimer _ _ _ => true
  | _ => false
  end.

(** Every start of the timer in [evs] comes right after a stop. *)
Fixpoint stop_before_each_start (evs : list event) : bool :=
  match evs with
  | [] => true
  | EvStartTimer _ :: _ => false
  | EvStopTimer :: EvStartTimer _ :: rest => stop_before_each_start rest
  | _ :: rest => stop_before_each_start rest
  end.

(** The state after the ePDS branch: timer rearmed, state IDLE. *)
Definition rearmed (d : Z) (w : world) : world :=
  with_app_state
    {| present_onoff := present_onoff (app_state w);
       target_onoff := target_onoff (app_state w);
       lpn_sleep_config := lpn_sleep_config (app_state w);
       lpn_wake_timer :=
         {| timer_created := timer_created (lpn_wake_timer (app_state w));
            timer_armed := Some d |};
       lpn_state := MESH_LPN_STATE_IDLE |} w.

(** Calls that stop or start the wake timer, and requests to enter
    HID-off. *)
Definition is_timer_call (e : event) : bool :=
  match e with
  | EvStopTimer => true
  | EvStartTimer _ => true
  | _ => false
  end.

Definition is_hid_off (e : event) : bool :=
  match e with EvEnterHidOff _ _ _ => true | _ => false end.

(** The state after [wakeup_timer_cb]: NOT_IDLE, countdown off. *)
Definition woken (w : world) : world :=
  with_app_state
    {| present_onoff := present_onoff (app_state w);
       target_onoff := target_onoff (app_state w);
       lpn_sleep_config := lpn_sleep_config (app_state w);
       lpn_wake_timer :=
         {| timer_created := timer_created (lpn_wake_timer (app_state w));
            timer_armed := None |};
       lpn_state := MESH_LPN_STATE_NOT_IDLE |} w.

(** [app_state] after the one-time block of [mesh_app_init]. *)
Definition registered (sdk : wiced_sdk) (b : build) (a : mesh_low_power_led_t)
  : mesh_low_power_led_t :=
  {| present_onoff := present_onoff a;
     target_onoff := target_onoff a;
     lpn_sleep_config := configured_sleep_config sdk b (lpn_sleep_config a);
     lpn_wake_timer := {| timer_created := true; timer_armed := None |};
     lpn_state := lpn_state a |}.

(** [lpn_state] holds one of its two named values. *)
Definition lpn_state_named (w : world) : Prop :=
  lpn_state (app_state w) = MESH_LPN_STATE_NOT_IDLE \/
  lpn_state (app_state w) = MESH_LPN_STATE_IDLE.

(** More event classes, for the properties of whole runs. *)
Definition is_start_timer (e : event) : bool :=
  match e with EvStartTimer _ => true | _ => false end.

Definition is_scan_response (e : event) : bool :=
  match e with EvSetRawScanResponseData _ _ => true | _ => false end.

Definition is_led_call (e : event) : bool :=
  match e with
  | EvLedControlInit _ => true
  | EvLedControlSetOnoff _ => true
  | _ => false
  end.

(** The device name [mesh_app_init] assigns on a build. *)
Definition build_device_name (b : build) : string :=
  if lpn_enabled b then "Low Power LED"%string else "On/Off LED"%string.

(** The two registrations of a device that booted with a zeroed
    [app_state]. *)
Definition boot_registrations (sdk : wiced_sdk) (b : build) : list event :=
  [EvSleepConfigure (configured_sleep_config sdk b sleep_config_zero);
   EvInitTimer cb_wakeup_timer_cb 0 (WICED_MILLI_SECONDS_TIMER sdk)].

(** What a run from boot keeps true of the trace [evs] it emitted and
    the world [w] it reached: the on/off fields are never written, and
    the sleep configuration, the timer and the registrations go with
    the latch. *)
Definition run_invariant (sdk : wiced_sdk) (b : build) (evs : list event) (w : world)
  : Prop :=
  present_onoff (app_state w) = 0 /\
  target_onoff (app_state w) = 0 /\
  if do_not_init_again w then
    lpn_enabled b = true /\
    filter is_registration evs = boot_registrations sdk b /\
    lpn_sleep_config (app_state w) = configured_sleep_config sdk b sleep_config_zero /\
    timer_created (lpn_wake_timer (app_state w)) = true
  else
    filter is_registration evs = [] /\
    lpn_sleep_config (app_state w) = sleep_config_zero /\
    timer_created (lpn_wake_timer (app_state w)) = false.

(** The wake timer runs only while the state is IDLE. *)
Definition armed_implies_idle (w : world) : Prop :=
  timer_armed (lpn_wake_timer (app_state w)) <> None ->
  lpn_state (app_state w) = MESH_LPN_STATE_IDLE.

(** On a threshold build, once initialised: IDLE exactly while the wake
    timer runs, and the timer never runs for two minutes or more. *)
Definition idle_iff_armed (w : world) : Prop :=
  (lpn_state (app_state w) = MESH_LPN_STATE_IDLE <->
   timer_armed (lpn_wake_timer (app_state w)) <> None) /\
  (forall d, timer_armed (lpn_wake_timer (app_state w)) = Some d ->
             0 <= d < 120000).

(** The trace line of a refused sleep configuration. *)
Definition is_configure_failure (e : event) : bool :=
  match e with
  | EvTrace fmt _ => String.eqb fmt "Sleep Configure failed\r\n"
  | _ => false
  end.

(** Calls that initialise the LED driver or the on/off server model. *)
Definition is_driver_init (e : event) : bool :=
  match e with
  | EvLedControlInit _ => true
  | EvPowerOnoffServerInit _ _ _ _ => true
  | _ => false
  end.

(** A sleep request with duration [d] takes a rearming branch on build
    [b]: below the threshold on a threshold build, any duration but the
    unbounded one on CYW20835B1. *)
Definition rearms (sdk : wiced_sdk) (b : build) (d : Z) : bool :=
  if defined (CYW20835B1 b)
  then negb (d =? to_uint32 (WICED_SLEEP_MAX_TIME_TO_SLEEP sdk))
  else d <? 120000.

(* ================================================================== *)
(** ** mesh_low_power_led_lpn_sleep *)

Section LpnSleep.

Variable sdk : wiced_sdk.
Variable b : build.
Variable env : platform.

Local Open Scope string_scope.
Local Open Scope Z_scope.
Local Open Scope list_scope.

Lemma lpn_sleep_epds (d : Z) (w : world) :
  defined (CYW20835B1 b) = false -> d < 120000 ->
  mesh_low_power_led_lpn_sleep sdk b env d w =
    (tt, rearmed d w,
     [EvStopTimer; EvStartTimer d;
      EvTrace "Get ready to go into ePDS sleep, duration=%d\n\r" [d]]).
Proof.
  intros Hchip Hd. unfold mesh_low_power_led_lpn_sleep.
  rewrite Hchip. apply Z.ltb_lt in Hd. rewrite Hd. reflexivity.
Qed.

Lemma lpn_sleep_hid_off (d : Z) (w : world) :
  defined (CYW20835B1 b) = false -> 120000 <= d ->
  mesh_low_power_led_lpn_sleep sdk b env d w =
    (tt, w,
     [EvTrace "Entering HID-OFF for max_sleep_duration: %d\r\n" [d];
      EvEnterHidOff d (WICED_GPIO_PIN_BUTTON sdk) 1] ++
     (if WICED_SUCCESS sdk =?
           wiced_sleep_enter_hid_off_result env d (WICED_GPIO_PIN_BUTTON sdk) 1
      then []
      else [EvTrace "Entering HID-Off failed\n\r" []])).
Proof.
  intros Hchip Hd. unfold mesh_low_power_led_lpn_sleep.
  rewrite Hchip. apply Z.ltb_ge in Hd. rewrite Hd.
  unfold bind, wiced_sleep_enter_hid_off, WICED_BT_TRACE, emit, mret, when; cbn.
  destruct (WICED_SUCCESS sdk =? _); reflexivity.
Qed.

Lemma lpn_sleep_sds (d : Z) (w : world) :
  defined (CYW20835B1 b) = true ->
  d <> to_uint32 (WICED_SLEEP_MAX_TIME_TO_SLEEP sdk) ->
  mesh_low_power_led_lpn_sleep sdk b env d w =
    (tt, rearmed d w,
     [EvStopTimer; EvStartTimer d;
      EvTrace "Get ready to go into SDS, duration=%d\n\r" [d]]).
Proof.
  intros Hchip Hd. unfold mesh_low_power_led_lpn_sleep.
  rewrite Hchip. apply Z.eqb_neq in Hd. rewrite Hd. reflexivity.
Qed.

Lemma lpn_sleep_sds_unbounded (w : world) :
  defined (CYW20835B1 b) = true ->
  mesh_low_power_led_lpn_sleep sdk b env
      (to_uint32 (WICED_SLEEP_MAX_TIME_TO_SLEEP sdk)) w =
    (tt, with_app_state (with_lpn_state MESH_LPN_STATE_IDLE (app_state w)) w,
     [EvTrace "Get ready to go into SDS, duration=%d\n\r"
        [to_uint32 (WICED_SLEEP_MAX_TIME_TO_SLEEP sdk)]]).
Proof.
  intros Hchip. unfold mesh_low_power_led_lpn_sleep.
  rewrite Hchip, Z.eqb_refl. reflexivity.
Qed.

(** Whatever the build, the duration and the state, a call that starts
    the timer stops it right before. *)
Lemma lpn_sleep_stop_before_start (d : Z) (w : world) :
  stop_before_each_start (emitted (mesh_low_power_led_lpn_sleep sdk b env d) w) = true.
Proof.
  unfold emitted, mesh_low_power_led_lpn_sleep.
  destruct (defined (CYW20835B1 b)).
  - destruct (d =? to_uint32 (WICED_SLEEP_MAX_TIME_TO_SLEEP sdk)); reflexivity.
  - destruct (d <? 120000); [reflexivity |].
    unfold bind, wiced_sleep_enter_hid_off, WICED_BT_TRACE, emit, mret, when; cbn.
    destruct (WICED_SUCCESS sdk =? _); reflexivity.
Qed.

End LpnSleep.

(** C2. On a build with the two-minute threshold (every chip but
    CYW20835B1), a call with a duration strictly below 120000 ms leaves
    the state IDLE and the wake timer armed with exactly that duration;
    the SDK sees a stop, a start with that duration and one trace
    line. *)
Theorem lpn_sleep_below_threshold
    (sdk : wiced_sdk) (b : build) (env : platform) (d : Z) (w : world) :
  defined (CYW20835B1 b) = false ->
  d < 120000 ->
  let call := mesh_low_power_led_lpn_sleep sdk b env d in
  lpn_state (app_state (final call w)) = MESH_LPN_STATE_IDLE /\
  timer_armed (lpn_wake_timer (app_state (final call w))) = Some d /\
  emitted call w =
    [EvStopTimer; EvStartTimer d;
     EvTrace "Get ready to go into ePDS sleep, duration=%d\n\r" [d]].
Proof.
  intros Hchip Hd call. unfold call, final, emitted.
  rewrite (lpn_sleep_epds sdk b env d w Hchip Hd). cbn.
  repeat split.
Qed.

Lemma lpn_sleep_below_threshold_witness :
  let call := mesh_low_power_led_lpn_sleep sample_sdk lpn_build_20819
                platform_accepts 50000 in
  lpn_state (app_state (final call boot)) = MESH_LPN_STATE_IDLE /\
  timer_armed (lpn_wake_timer (app_state (final call boot))) = Some 50000 /\
  emitted call boot =
    [EvStopTimer; EvStartTimer 50000;
     EvTrace "Get ready to go into ePDS sleep, duration=%d\n\r" [50000]].
Proof.
  apply (lpn_sleep_below_threshold sample_sdk lpn_build_20819
           platform_accepts 50000 boot).
  - reflexivity.
  - lia.
Defined.

(** C1, as stated, fails: from the boot state (NOT_IDLE, timer not
    armed) a call with 180000 ms on a threshold build returns with the
    state still NOT_IDLE. *)
Lemma lpn_sleep_deep_sleep_not_idle :
  let call := mesh_low_power_led_lpn_sleep sample_sdk lpn_build_20819
                platform_accepts 180000 in
  120000 <= 180000 /\
  ~ (lpn_state (app_state (final call boot)) = MESH_LPN_STATE_IDLE /\
     timer_armed (lpn_wake_timer (app_state (final call boot))) = None).
Proof.
  split; [lia |].
  intros [Hidle _]. vm_compute in Hidle. discriminate Hidle.
Qed.

(** The HID-off branch does not stop a timer that was armed before: a
    call with 50 s followed by one with 180 s leaves the 50 s countdown
    running. *)
Example lpn_sleep_deep_sleep_keeps_timer :
  let w1 := final (mesh_low_power_led_lpn_sleep sample_sdk lpn_build_20819
                     platform_accepts 50000) boot in
  let w2 := final (mesh_low_power_led_lpn_sleep sample_sdk lpn_build_20819
                     platform_accepts 180000) w1 in
  timer_armed (lpn_wake_timer (app_state w2)) = Some 50000.
Proof. reflexivity. Qed.

(** C1 (amended). On a threshold build, a call with a duration of
    120000 ms or more takes the HID-off path: it asks the platform once
    to enter HID-off with that duration, the button pin and level 1; it
    makes no timer call and changes no global, so the state flag and
    the wake timer are after the call what they were before it. *)
Theorem lpn_sleep_at_or_above_threshold
    (sdk : wiced_sdk) (b : build) (env : platform) (d : Z) (w : world) :
  defined (CYW20835B1 b) = false ->
  120000 <= d ->
  let call := mesh_low_power_led_lpn_sleep sdk b env d in
  final call w = w /\
  lpn_state (app_state (final call w)) = lpn_state (app_state w) /\
  timer_armed (lpn_wake_timer (app_state (final call w))) =
    timer_armed (lpn_wake_timer (app_state w)) /\
  filter is_timer_call (emitted call w) = [] /\
  filter is_hid_off (emitted call w) =
    [EvEnterHidOff d (WICED_GPIO_PIN_BUTTON sdk) 1].
Proof.
  intros Hchip Hd call. unfold call, final, emitted.
  rewrite (lpn_sleep_hid_off sdk b env d w Hchip Hd). cbn.
  repeat split; destruct (WICED_SUCCESS sdk =? _); reflexivity.
Qed.

Lemma lpn_sleep_at_or_above_threshold_witness :
  let call := mesh_low_power_led_lpn_sleep sample_sdk lpn_build_20819
                platform_accepts 180000 in
  final call boot = boot /\
  filter is_hid_off (emitted call boot) = [EvEnterHidOff 180000 0 1].
Proof.
  pose proof (lpn_sleep_at_or_above_threshold sample_sdk lpn_build_20819
                platform_accepts 180000 boot eq_refl) as H.
  assert (Hd : 120000 <= 180000) by lia.
  destruct (H Hd) as (Hw & _ & _ & _ & Hoff).
  split; [exact Hw | exact Hoff].
Defined.

(** C3, as stated, fails: when the platform refuses HID-off for a call
    made in the boot state, the state is NOT_IDLE after the call, not
    IDLE. *)
Lemma hid_off_rejected_not_idle :
  let call := mesh_low_power_led_lpn_sleep sample_sdk lpn_build_20819
                platform_rejects_hid_off 180000 in
  wiced_sleep_enter_hid_off_result platform_rejects_hid_off 180000
    (WICED_GPIO_PIN_BUTTON sample_sdk) 1 <> WICED_SUCCESS sample_sdk /\
  lpn_state (app_state (final call boot)) <> MESH_LPN_STATE_IDLE.
Proof.
  split; vm_compute; discriminate.
Qed.

(** C3 (amended). When the platform refuses the HID-off request of a
    call on the HID-off path, the call traces the failure and returns:
    the request is made once, nothing else is asked of the platform,
    and no global changes, so the state flag is left as it was before
    the call. *)
Theorem hid_off_rejected
    (sdk : wiced_sdk) (b : build) (env : platform) (d : Z) (w : world) :
  defined (CYW20835B1 b) = false ->
  120000 <= d ->
  wiced_sleep_enter_hid_off_result env d (WICED_GPIO_PIN_BUTTON sdk) 1
    <> WICED_SUCCESS sdk ->
  let call := mesh_low_power_led_lpn_sleep sdk b env d in
  final call w = w /\
  lpn_state (app_state (final call w)) = lpn_state (app_state w) /\
  emitted call w =
    [EvTrace "Entering HID-OFF for max_sleep_duration: %d\r\n" [d];
     EvEnterHidOff d (WICED_GPIO_PIN_BUTTON sdk) 1;
     EvTrace "Entering HID-Off failed\n\r" []].
Proof.
  intros Hchip Hd Hrej call. unfold call, final, emitted.
  rewrite (lpn_sleep_hid_off sdk b env d w Hchip Hd). cbn.
  assert (Hne : (WICED_SUCCESS sdk =?
            wiced_sleep_enter_hid_off_result env d (WICED_GPIO_PIN_BUTTON sdk) 1)
          = false).
  { apply Z.eqb_neq. intro Heq. apply Hrej. symmetry. exact Heq. }
  rewrite Hne. repeat split.
Qed.

Lemma hid_off_rejected_witness :
  let call := mesh_low_power_led_lpn_sleep sample_sdk lpn_build_20819
                platform_rejects_hid_off 180000 in
  final call boot = boot /\
  emitted call boot =
    [EvTrace "Entering HID-OFF for max_sleep_duration: %d\r\n" [180000];
     EvEnterHidOff 180000 0 1;
     EvTrace "Entering HID-Off failed\n\r" []].
Proof.
  assert (Hd : 120000 <= 180000) by lia.
  assert (Hrej : wiced_sleep_enter_hid_off_result platform_rejects_hid_off 180000
                   (WICED_GPIO_PIN_BUTTON sample_sdk) 1 <> WICED_SUCCESS sample_sdk)
    by (vm_compute; discriminate).
  destruct (hid_off_rejected sample_sdk lpn_build_20819 platform_rejects_hid_off
              180000 boot eq_refl Hd Hrej) as (Hw & _ & Hev).
  split; [exact Hw | exact Hev].
Defined.

(** When the platform accepts, the same path emits no failure trace. *)
Lemma hid_off_accepted
    (sdk : wiced_sdk) (b : build) (env : platform) (d : Z) (w : world) :
  defined (CYW20835B1 b) = false ->
  120000 <= d ->
  wiced_sleep_enter_hid_off_result env d (WICED_GPIO_PIN_BUTTON sdk) 1
    = WICED_SUCCESS sdk ->
  emitted (mesh_low_power_led_lpn_sleep sdk b env d) w =
    [EvTrace "Entering HID-OFF for max_sleep_duration: %d\r\n" [d];
     EvEnterHidOff d (WICED_GPIO_PIN_BUTTON sdk) 1].
Proof.
  intros Hchip Hd Hacc. unfold emitted.
  rewrite (lpn_sleep_hid_off sdk b env d w Hchip Hd), Hacc, Z.eqb_refl.
  reflexivity.
Qed.

(** C4. Every call that starts the wake timer stops it right before
    (on every build, for every duration and state). On a threshold
    build, two calls in a row with durations [d1] then [d2], both below
    120000 ms and with no expiry between them, leave the timer armed
    with exactly [d2]: the second call first disarms the countdown that
    ran with [d1], and the state after both calls is the state the
    second call alone would have produced. *)
Theorem lpn_sleep_rearm
    (sdk : wiced_sdk) (b : build) (env1 env2 : platform) (d1 d2 : Z) (w : world) :
  defined (CYW20835B1 b) = false ->
  d1 < 120000 ->
  d2 < 120000 ->
  let first := mesh_low_power_led_lpn_sleep sdk b env1 d1 in
  let second := mesh_low_power_led_lpn_sleep sdk b env2 d2 in
  let w1 := final first w in
  let w2 := final second w1 in
  (forall b' env d w', stop_before_each_start
     (emitted (mesh_low_power_led_lpn_sleep sdk b' env d) w') = true) /\
  timer_armed (lpn_wake_timer (app_state w1)) = Some d1 /\
  timer_armed (lpn_wake_timer (app_state (final wiced_stop_timer w1))) = None /\
  timer_armed (lpn_wake_timer (app_state w2)) = Some d2 /\
  lpn_state (app_state w2) = MESH_LPN_STATE_IDLE /\
  w2 = final second w /\
  emitted first w ++ emitted second w1 =
    [EvStopTimer; EvStartTimer d1;
     EvTrace "Get ready to go into ePDS sleep, duration=%d\n\r" [d1];
     EvStopTimer; EvStartTimer d2;
     EvTrace "Get ready to go into ePDS sleep, duration=%d\n\r" [d2]].
Proof.
  intros Hchip H1 H2 first second w1 w2.
  split.
  { intros b' env d w'. apply lpn_sleep_stop_before_start. }
  unfold w2, w1, first, second, final, emitted.
  rewrite (lpn_sleep_epds sdk b env1 d1 w Hchip H1). cbn [fst snd].
  rewrite !(lpn_sleep_epds sdk b env2 d2 _ Hchip H2). cbn.
  repeat split.
Qed.

Lemma lpn_sleep_rearm_witness :
  let first := mesh_low_power_led_lpn_sleep sample_sdk lpn_build_20819
                 platform_accepts 50000 in
  let second := mesh_low_power_led_lpn_sleep sample_sdk lpn_build_20819
                  platform_accepts 30000 in
  timer_armed (lpn_wake_timer (app_state (final second (final first boot))))
    = Some 30000.
Proof.
  assert (H1 : 50000 < 120000) by lia.
  assert (H2 : 30000 < 120000) by lia.
  destruct (lpn_sleep_rearm sample_sdk lpn_build_20819 platform_accepts
              platform_accepts 50000 30000 boot eq_refl H1 H2)
    as (_ & _ & _ & Harmed & _).
  exact Harmed.
Defined.

(* ================================================================== *)
(** ** mesh_low_power_led_sleep_poll *)

Section SleepPoll.

Variable sdk : wiced_sdk.
Variable b : build.

(** The three outcomes of the [switch], by query type and state. *)
Lemma sleep_poll_time_to_sleep_eq (w : world) :
  mesh_low_power_led_sleep_poll sdk b (WICED_SLEEP_POLL_TIME_TO_SLEEP sdk) w =
    if lpn_state (app_state w) =? MESH_LPN_STATE_NOT_IDLE
    then (to_uint32 (WICED_SLEEP_NOT_ALLOWED sdk), w, [EvTrace "!" []])
    else (to_uint32 (WICED_SLEEP_MAX_TIME_TO_SLEEP sdk), w, [EvTrace "@\n" []]).
Proof.
  unfold mesh_low_power_led_sleep_poll. rewrite Z.eqb_refl. cbn.
  destruct (lpn_state (app_state w) =? MESH_LPN_STATE_NOT_IDLE); reflexivity.
Qed.

Lemma sleep_poll_permission_eq (w : world) :
  poll_types_distinct sdk = true ->
  mesh_low_power_led_sleep_poll sdk b (WICED_SLEEP_POLL_SLEEP_PERMISSION sdk) w =
    if lpn_state (app_state w) =? MESH_LPN_STATE_IDLE
    then (allowed_variant sdk b, w, [EvTrace "#\n" []])
    else (to_uint32 (WICED_SLEEP_NOT_ALLOWED sdk), w, []).
Proof.
  unfold poll_types_distinct, mesh_low_power_led_sleep_poll, allowed_variant.
  intros Hne. apply negb_true_iff in Hne.
  rewrite Z.eqb_sym in Hne. rewrite Hne, Z.eqb_refl. cbn.
  destruct (lpn_state (app_state w) =? MESH_LPN_STATE_IDLE); reflexivity.
Qed.

Lemma sleep_poll_other_eq (type : Z) (w : world) :
  type <> WICED_SLEEP_POLL_TIME_TO_SLEEP sdk ->
  type <> WICED_SLEEP_POLL_SLEEP_PERMISSION sdk ->
  mesh_low_power_led_sleep_poll sdk b type w =
    (to_uint32 (WICED_SLEEP_NOT_ALLOWED sdk), w, []).
Proof.
  intros H1 H2. unfold mesh_low_power_led_sleep_poll.
  apply Z.eqb_neq in H1. apply Z.eqb_neq in H2. rewrite H1, H2. reflexivity.
Qed.

(** The poll leaves every global as it is and only traces. *)
Lemma sleep_poll_frame (type : Z) (w : world) :
  final (mesh_low_power_led_sleep_poll sdk b type) w = w /\
  forallb is_trace (emitted (mesh_low_power_led_sleep_poll sdk b type) w) = true.
Proof.
  unfold final, emitted, mesh_low_power_led_sleep_poll.
  destruct (type =? WICED_SLEEP_POLL_TIME_TO_SLEEP sdk).
  - cbn. destruct (lpn_state (app_state w) =? MESH_LPN_STATE_NOT_IDLE);
      split; reflexivity.
  - destruct (type =? WICED_SLEEP_POLL_SLEEP_PERMISSION sdk).
    + cbn. destruct (lpn_state (app_state w) =? MESH_LPN_STATE_IDLE);
        split; reflexivity.
    + split; reflexivity.
Qed.

(** The answer is computed from the query type and [lpn_state]. *)
Lemma sleep_poll_result_by_state (type : Z) (w w' : world) :
  lpn_state (app_state w') = lpn_state (app_state w) ->
  result (mesh_low_power_led_sleep_poll sdk b type) w' =
  result (mesh_low_power_led_sleep_poll sdk b type) w.
Proof.
  intros Hst. unfold result, mesh_low_power_led_sleep_poll.
  destruct (type =? WICED_SLEEP_POLL_TIME_TO_SLEEP sdk).
  - cbn. rewrite Hst.
    destruct (lpn_state (app_state w) =? MESH_LPN_STATE_NOT_IDLE); reflexivity.
  - destruct (type =? WICED_SLEEP_POLL_SLEEP_PERMISSION sdk).
    + cbn. rewrite Hst.
      destruct (lpn_state (app_state w) =? MESH_LPN_STATE_IDLE); reflexivity.
    + reflexivity.
Qed.

End SleepPoll.

(** What [sleep_answers_distinct] says, as three inequalities. *)
Lemma sleep_answers_distinct_spec (sdk : wiced_sdk) :
  sleep_answers_distinct sdk = true ->
  to_uint32 (WICED_SLEEP_NOT_ALLOWED sdk)
    <> to_uint32 (WICED_SLEEP_MAX_TIME_TO_SLEEP sdk) /\
  to_uint32 (WICED_SLEEP_NOT_ALLOWED sdk)
    <> to_uint32 (WICED_SLEEP_ALLOWED_WITHOUT_SHUTDOWN sdk) /\
  to_uint32 (WICED_SLEEP_NOT_ALLOWED sdk)
    <> to_uint32 (WICED_SLEEP_ALLOWED_WITH_SHUTDOWN sdk).
Proof.
  unfold sleep_answers_distinct. intros H.
  apply andb_true_iff in H. destruct H as [H H3].
  apply andb_true_iff in H. destruct H as [H1 H2].
  apply negb_true_iff in H1, H2, H3.
  repeat split; apply Z.eqb_neq; assumption.
Qed.

Lemma allowed_variant_is_allowed (sdk : wiced_sdk) (b : build) :
  is_allowed sdk (allowed_variant sdk b) = true.
Proof.
  unfold is_allowed, allowed_variant.
  destruct (defined (CYW20835B1 b)); rewrite Z.eqb_refl;
    [apply orb_true_r | reflexivity].
Qed.

Lemma not_allowed_is_not_allowed (sdk : wiced_sdk) :
  sleep_answers_distinct sdk = true ->
  is_allowed sdk (to_uint32 (WICED_SLEEP_NOT_ALLOWED sdk)) = false.
Proof.
  intros H. destruct (sleep_answers_distinct_spec sdk H) as (_ & H2 & H3).
  unfold is_allowed. apply orb_false_iff.
  split; apply Z.eqb_neq; assumption.
Qed.

(* ================================================================== *)
(** ** wakeup_timer_cb, the status handler and mesh_app_init *)

Lemma wakeup_timer_cb_eq (arg : Z) (w : world) :
  wakeup_timer_cb arg w = (tt, woken w, [EvTrace "ePDS wake up!!!\n" []; EvStopTimer]).
Proof. reflexivity. Qed.

Lemma message_handler_final (sdk : wiced_sdk) (element_idx ev onoff : Z) (w : world) :
  final (mesh_low_power_led_message_handler sdk element_idx ev onoff) w = w.
Proof.
  unfold final, mesh_low_power_led_message_handler.
  destruct (ev =? WICED_BT_MESH_ONOFF_STATUS sdk); reflexivity.
Qed.

(** On every build a sleep request either leaves the globals alone or
    sets the state to IDLE; it never touches the latch. *)
Lemma lpn_sleep_effect (sdk : wiced_sdk) (b : build) (env : platform) (d : Z) (w : world) :
  let w' := final (mesh_low_power_led_lpn_sleep sdk b env d) w in
  do_not_init_again w' = do_not_init_again w /\
  timer_created (lpn_wake_timer (app_state w')) =
    timer_created (lpn_wake_timer (app_state w)) /\
  (w' = w \/ lpn_state (app_state w') = MESH_LPN_STATE_IDLE).
Proof.
  cbn zeta. unfold final, mesh_low_power_led_lpn_sleep.
  destruct (defined (CYW20835B1 b)).
  - destruct (d =? to_uint32 (WICED_SLEEP_MAX_TIME_TO_SLEEP sdk));
      cbn; repeat split; auto.
  - destruct (d <? 120000).
    + cbn; repeat split; auto.
    + unfold bind, wiced_sleep_enter_hid_off, WICED_BT_TRACE, emit, mret, when; cbn.
      destruct (WICED_SUCCESS sdk =? _); cbn; repeat split; auto.
Qed.

Section Init.

Variable sdk : wiced_sdk.
Variable b : build.
Variable env : platform.
Variable is_provisioned : bool.

(** The globals after [mesh_app_init]: the settings and the firmware
    version are rewritten on every call, [app_state] only while the
    latch is clear on a low-power-node build. *)
Lemma mesh_app_init_final (w : world) :
  final (mesh_app_init sdk b env is_provisioned) w =
    {| app_state :=
         if lpn_enabled b && negb (do_not_init_again w)
         then registered sdk b (app_state w) else app_state w;
       do_not_init_again := do_not_init_again w || lpn_enabled b;
       mesh_prop_fw_version := fw_version sdk;
       cfg_device_name :=
         if lpn_enabled b then "Low Power LED"%string else "On/Off LED"%string;
       cfg_appearance := to_uint16 (APPEARANCE_GENERIC_TAG sdk) |}.
Proof.
  unfold final, mesh_app_init, trace_start_reason, init_once, wiced_sleep_configure.
  destruct (wiced_hal_mia_is_reset_reason_por env);
    destruct (nonzero (CYW20819A1 b) && wiced_hal_mia_is_reset_reason_hid_timeout env);
    destruct is_provisioned;
    destruct (defined (NETWORK_FILTER_SERVER_SUPPORTED b));
    destruct (lpn_enabled b);
    destruct (do_not_init_again w) eqn:Hlatch;
    cbn; rewrite ?Hlatch; cbn;
    try destruct (WICED_BT_SUCCESS sdk =? wiced_sleep_configure_result env);
    reflexivity.
Qed.

(** The registrations [mesh_app_init] makes: the sleep configuration and
    the wake timer, once, while the latch is clear. *)
Lemma mesh_app_init_registrations (w : world) :
  filter is_registration (emitted (mesh_app_init sdk b env is_provisioned) w) =
    if lpn_enabled b && negb (do_not_init_again w)
    then [EvSleepConfigure (configured_sleep_config sdk b (lpn_sleep_config (app_state w)));
          EvInitTimer cb_wakeup_timer_cb 0 (WICED_MILLI_SECONDS_TIMER sdk)]
    else [].
Proof.
  unfold emitted, mesh_app_init, trace_start_reason, init_once, wiced_sleep_configure.
  destruct (wiced_hal_mia_is_reset_reason_por env);
    destruct (nonzero (CYW20819A1 b) && wiced_hal_mia_is_reset_reason_hid_timeout env);
    destruct is_provisioned;
    destruct (defined (NETWORK_FILTER_SERVER_SUPPORTED b));
    destruct (lpn_enabled b);
    destruct (do_not_init_again w) eqn:Hlatch;
    cbn; rewrite ?Hlatch; cbn;
    try destruct (WICED_BT_SUCCESS sdk =? wiced_sleep_configure_result env);
    reflexivity.
Qed.

End Init.

(* ================================================================== *)
(** ** Invariants of the transition system *)

Section Invariants.

Variable sdk : wiced_sdk.
Variable b : build.

(** [lpn_state] only ever holds NOT_IDLE or IDLE. *)
Lemma step_lpn_state_named (w w' : world) (evs : list event) :
  step sdk b w evs w' -> lpn_state_named w -> lpn_state_named w'.
Proof.
  intros Hstep Hw.
  destruct Hstep as [env prov w | idx ev onoff w | env d w Hd | arg w | type w].
  - rewrite mesh_app_init_final. unfold lpn_state_named in *. cbn.
    destruct (lpn_enabled b && negb (do_not_init_again w)); exact Hw.
  - rewrite message_handler_final. exact Hw.
  - destruct (lpn_sleep_effect sdk b env d w) as (_ & _ & [Heq | Hidle]).
    + rewrite Heq. exact Hw.
    + right. exact Hidle.
  - left. reflexivity.
  - rewrite (proj1 (sleep_poll_frame sdk b type w)). exact Hw.
Qed.

(** Once set, the latch stays set: nothing clears [do_not_init_again]. *)
Lemma step_latch (w w' : world) (evs : list event) :
  step sdk b w evs w' -> do_not_init_again w = true -> do_not_init_again w' = true.
Proof.
  intros Hstep Hw.
  destruct Hstep as [env prov w | idx ev onoff w | env d w Hd | arg w | type w].
  - rewrite mesh_app_init_final. cbn. rewrite Hw. reflexivity.
  - rewrite message_handler_final. exact Hw.
  - rewrite (proj1 (lpn_sleep_effect sdk b env d w)). exact Hw.
  - exact Hw.
  - rewrite (proj1 (sleep_poll_frame sdk b type w)). exact Hw.
Qed.

(** Once created, the wake timer stays created. *)
Lemma step_timer_created (w w' : world) (evs : list event) :
  step sdk b w evs w' ->
  timer_created (lpn_wake_timer (app_state w)) = true ->
  timer_created (lpn_wake_timer (app_state w')) = true.
Proof.
  intros Hstep Hw.
  destruct Hstep as [env prov w | idx ev onoff w | env d w Hd | arg w | type w].
  - rewrite mesh_app_init_final. cbn.
    destruct (lpn_enabled b && negb (do_not_init_again w)); [reflexivity | exact Hw].
  - rewrite message_handler_final. exact Hw.
  - rewrite (proj1 (proj2 (lpn_sleep_effect sdk b env d w))). exact Hw.
  - exact Hw.
  - rewrite (proj1 (sleep_poll_frame sdk b type w)). exact Hw.
Qed.

Lemma steps_timer_created (w w' : world) (evs : list event) :
  steps sdk b w evs w' ->
  timer_created (lpn_wake_timer (app_state w)) = true ->
  timer_created (lpn_wake_timer (app_state w')) = true.
Proof.
  intros Hsteps. induction Hsteps as [w | w w1 w2 e1 e2 _ IH Hstep]; intros Hw.
  - exact Hw.
  - eapply step_timer_created; [exact Hstep | apply IH; exact Hw].
Qed.

Lemma steps_lpn_state_named (w w' : world) (evs : list event) :
  steps sdk b w evs w' -> lpn_state_named w -> lpn_state_named w'.
Proof.
  intros Hsteps. induction Hsteps as [w | w w1 w2 e1 e2 _ IH Hstep]; intros Hw.
  - exact Hw.
  - eapply step_lpn_state_named; [exact Hstep | apply IH; exact Hw].
Qed.

Lemma steps_latch (w w' : world) (evs : list event) :
  steps sdk b w evs w' -> do_not_init_again w = true -> do_not_init_again w' = true.
Proof.
  intros Hsteps. induction Hsteps as [w | w w1 w2 e1 e2 _ IH Hstep]; intros Hw.
  - exact Hw.
  - eapply step_latch; [exact Hstep | apply IH; exact Hw].
Qed.

Lemma reachable_lpn_state_named (w : world) :
  reachable sdk b w -> lpn_state_named w.
Proof.
  intros (name & appearance & evs & Hsteps).
  eapply steps_lpn_state_named; [exact Hsteps |].
  left. reflexivity.
Qed.

Lemma reachable_boot : reachable sdk b boot.
Proof. exists EmptyString, 0, []. apply steps_refl. Defined.

Lemma reachable_step (w w' : world) (evs : list event) :
  reachable sdk b w -> step sdk b w evs w' -> reachable sdk b w'.
Proof.
  intros (name & appearance & evs0 & Hsteps) Hstep.
  exists name, appearance, (evs0 ++ evs).
  eapply steps_snoc; [exact Hsteps | exact Hstep].
Defined.

End Invariants.

(** C5. In every state the TIME_TO_SLEEP query is answered "not
    allowed" exactly when [lpn_state] is NOT_IDLE, and with the
    sleep-time ceiling otherwise; in a reachable state these are the
    two cases NOT_IDLE and IDLE. *)
Theorem sleep_poll_time_to_sleep (sdk : wiced_sdk) (b : build) (w : world) :
  sleep_answers_distinct sdk = true ->
  let r := result (mesh_low_power_led_sleep_poll sdk b
                     (WICED_SLEEP_POLL_TIME_TO_SLEEP sdk)) w in
  (r = to_uint32 (WICED_SLEEP_NOT_ALLOWED sdk)
     <-> lpn_state (app_state w) = MESH_LPN_STATE_NOT_IDLE) /\
  (lpn_state (app_state w) <> MESH_LPN_STATE_NOT_IDLE ->
     r = to_uint32 (WICED_SLEEP_MAX_TIME_TO_SLEEP sdk)) /\
  (reachable sdk b w ->
     (lpn_state (app_state w) = MESH_LPN_STATE_NOT_IDLE /\
      r = to_uint32 (WICED_SLEEP_NOT_ALLOWED sdk)) \/
     (lpn_state (app_state w) = MESH_LPN_STATE_IDLE /\
      r = to_uint32 (WICED_SLEEP_MAX_TIME_TO_SLEEP sdk))).
Proof.
  intros Hdist r. unfold r, result.
  destruct (sleep_answers_distinct_spec sdk Hdist) as (Hmax & _ & _).
  rewrite sleep_poll_time_to_sleep_eq.
  destruct (lpn_state (app_state w) =? MESH_LPN_STATE_NOT_IDLE) eqn:Hst; cbn.
  - apply Z.eqb_eq in Hst. repeat split; auto.
    intros Hne. contradiction.
  - apply Z.eqb_neq in Hst. repeat split.
    + intros Heq. exfalso. apply Hmax. symmetry. exact Heq.
    + intros Heq. contradiction.
    + intros Hreach.
      destruct (reachable_lpn_state_named sdk b w Hreach) as [H0 | H1].
      * contradiction.
      * right. split; [exact H1 | reflexivity].
Qed.

Lemma sleep_poll_time_to_sleep_witness :
  sleep_answers_distinct sample_sdk = true /\
  result (mesh_low_power_led_sleep_poll sample_sdk lpn_build_20819
            (WICED_SLEEP_POLL_TIME_TO_SLEEP sample_sdk)) boot
    = to_uint32 (WICED_SLEEP_NOT_ALLOWED sample_sdk).
Proof.
  split; [reflexivity |].
  destruct (sleep_poll_time_to_sleep sample_sdk lpn_build_20819 boot eq_refl)
    as (Hiff & _ & _).
  apply Hiff. reflexivity.
Defined.

(** C6, as stated, fails in its last part: in the boot state
    (NOT_IDLE) the SLEEP_PERMISSION query is answered with
    WICED_SLEEP_NOT_ALLOWED, which reads "not allowed", not "not
    specified". *)
Lemma sleep_poll_permission_not_idle_answers :
  let r := result (mesh_low_power_led_sleep_poll sample_sdk lpn_build_20819
                     (WICED_SLEEP_POLL_SLEEP_PERMISSION sample_sdk)) boot in
  lpn_state (app_state boot) = MESH_LPN_STATE_NOT_IDLE /\
  spec_response_of sample_sdk r = RespNotAllowed /\
  spec_response_of sample_sdk r <> RespNotSpecified.
Proof.
  split; [reflexivity |].
  split; [reflexivity |].
  vm_compute. discriminate.
Qed.

(** C6 (amended). In every state the SLEEP_PERMISSION query is answered
    with an "allowed" value exactly when [lpn_state] is IDLE; that value
    is fixed by the build (with shutdown on CYW20835B1, without
    otherwise). When [lpn_state] is not IDLE, so in a reachable state
    when it is NOT_IDLE, the answer is "not allowed", the value the
    result was initialised with. *)
Theorem sleep_poll_permission (sdk : wiced_sdk) (b : build) (w : world) :
  poll_types_distinct sdk = true ->
  sleep_answers_distinct sdk = true ->
  let r := result (mesh_low_power_led_sleep_poll sdk b
                     (WICED_SLEEP_POLL_SLEEP_PERMISSION sdk)) w in
  (is_allowed sdk r = true <-> lpn_state (app_state w) = MESH_LPN_STATE_IDLE) /\
  (lpn_state (app_state w) = MESH_LPN_STATE_IDLE -> r = allowed_variant sdk b) /\
  (lpn_state (app_state w) <> MESH_LPN_STATE_IDLE ->
     r = to_uint32 (WICED_SLEEP_NOT_ALLOWED sdk)) /\
  (reachable sdk b w ->
     (lpn_state (app_state w) = MESH_LPN_STATE_IDLE /\ r = allowed_variant sdk b) \/
     (lpn_state (app_state w) = MESH_LPN_STATE_NOT_IDLE /\
      r = to_uint32 (WICED_SLEEP_NOT_ALLOWED sdk))).
Proof.
  intros Htypes Hdist r. unfold r, result.
  rewrite (sleep_poll_permission_eq sdk b w Htypes).
  destruct (lpn_state (app_state w) =? MESH_LPN_STATE_IDLE) eqn:Hst; cbn.
  - apply Z.eqb_eq in Hst. repeat split; auto.
    + intros _. apply allowed_variant_is_allowed.
    + intros Hne. contradiction.
  - apply Z.eqb_neq in Hst. repeat split.
    + rewrite (not_allowed_is_not_allowed sdk Hdist). discriminate.
    + intros Heq. contradiction.
    + intros Heq. contradiction.
    + intros Hreach.
      destruct (reachable_lpn_state_named sdk b w Hreach) as [H0 | H1].
      * right. split; [exact H0 | reflexivity].
      * contradiction.
Qed.

Lemma sleep_poll_permission_witness :
  let idle := final (mesh_low_power_led_lpn_sleep sample_sdk lpn_build_20819
                       platform_accepts 50000) boot in
  poll_types_distinct sample_sdk = true /\
  sleep_answers_distinct sample_sdk = true /\
  result (mesh_low_power_led_sleep_poll sample_sdk lpn_build_20819
            (WICED_SLEEP_POLL_SLEEP_PERMISSION sample_sdk)) idle
    = allowed_variant sample_sdk lpn_build_20819.
Proof.
  split; [reflexivity |].
  split; [reflexivity |].
  destruct (sleep_poll_permission sample_sdk lpn_build_20819
              (final (mesh_low_power_led_lpn_sleep sample_sdk lpn_build_20819
                        platform_accepts 50000) boot) eq_refl eq_refl)
    as (_ & Hidle & _).
  apply Hidle. reflexivity.
Defined.

(** C7. The poll changes no global: for every query type and state the
    world after the call is the world before it (state flag, on/off
    fields, sleep configuration, wake timer, latch), the only calls it
    makes are trace lines, and two states with the same [lpn_state] get
    the same answer to the same query. *)
Theorem sleep_poll_pure (sdk : wiced_sdk) (b : build) (type : Z) (w w' : world) :
  lpn_state (app_state w') = lpn_state (app_state w) ->
  let poll := mesh_low_power_led_sleep_poll sdk b type in
  final poll w = w /\
  app_state (final poll w) = app_state w /\
  forallb is_trace (emitted poll w) = true /\
  filter is_timer_call (emitted poll w) = [] /\
  result poll w' = result poll w.
Proof.
  intros Hst poll. unfold poll.
  destruct (sleep_poll_frame sdk b type w) as [Hfinal Htrace].
  rewrite Hfinal. repeat split.
  - exact Htrace.
  - revert Htrace.
    induction (emitted (mesh_low_power_led_sleep_poll sdk b type) w) as [| e evs IH].
    + reflexivity.
    + cbn. destruct e; cbn; try discriminate. exact IH.
  - apply sleep_poll_result_by_state. exact Hst.
Qed.

Lemma sleep_poll_pure_witness :
  let idle := final (mesh_low_power_led_lpn_sleep sample_sdk lpn_build_20819
                       platform_accepts 50000) boot in
  let idle' := final (mesh_low_power_led_lpn_sleep sample_sdk lpn_build_20819
                        platform_accepts 30000) boot in
  let poll := mesh_low_power_led_sleep_poll sample_sdk lpn_build_20819
                (WICED_SLEEP_POLL_SLEEP_PERMISSION sample_sdk) in
  final poll idle = idle /\ result poll idle' = result poll idle.
Proof.
  destruct (sleep_poll_pure sample_sdk lpn_build_20819
              (WICED_SLEEP_POLL_SLEEP_PERMISSION sample_sdk)
              (final (mesh_low_power_led_lpn_sleep sample_sdk lpn_build_20819
                        platform_accepts 50000) boot)
              (final (mesh_low_power_led_lpn_sleep sample_sdk lpn_build_20819
                        platform_accepts 30000) boot)
              eq_refl) as (Hfinal & _ & _ & _ & Hres).
  split; [exact Hfinal | exact Hres].
Defined.

(** C8. In every state the timer callback sets [lpn_state] to NOT_IDLE
    and stops the wake timer. Run a second time with no sleep request
    in between it finds NOT_IDLE and a stopped timer and leaves every
    global as the first run left it; it repeats its trace line and its
    stop call and nothing else. *)
Theorem wakeup_timer_cb_idempotent (arg arg' : Z) (w : world) :
  let w1 := final (wakeup_timer_cb arg) w in
  let w2 := final (wakeup_timer_cb arg') w1 in
  lpn_state (app_state w1) = MESH_LPN_STATE_NOT_IDLE /\
  timer_armed (lpn_wake_timer (app_state w1)) = None /\
  emitted (wakeup_timer_cb arg) w = [EvTrace "ePDS wake up!!!\n" []; EvStopTimer] /\
  lpn_state (app_state w2) = MESH_LPN_STATE_NOT_IDLE /\
  timer_armed (lpn_wake_timer (app_state w2)) = None /\
  w2 = w1 /\
  emitted (wakeup_timer_cb arg') w1 = [EvTrace "ePDS wake up!!!\n" []; EvStopTimer] /\
  present_onoff (app_state w1) = present_onoff (app_state w) /\
  target_onoff (app_state w1) = target_onoff (app_state w) /\
  lpn_sleep_config (app_state w1) = lpn_sleep_config (app_state w) /\
  do_not_init_again w1 = do_not_init_again w.
Proof.
  cbn zeta. unfold final, emitted. rewrite !wakeup_timer_cb_eq. cbn.
  repeat split.
Qed.

(** C10. A query type that is neither TIME_TO_SLEEP nor
    SLEEP_PERMISSION gets the value the result was initialised with,
    "not allowed", in every state; the call changes nothing and emits
    nothing, and the answer is neither an "allowed" value nor the
    sleep-time ceiling. *)
Theorem sleep_poll_unknown_type (sdk : wiced_sdk) (b : build) (type : Z) (w : world) :
  type <> WICED_SLEEP_POLL_TIME_TO_SLEEP sdk ->
  type <> WICED_SLEEP_POLL_SLEEP_PERMISSION sdk ->
  let poll := mesh_low_power_led_sleep_poll sdk b type in
  result poll w = to_uint32 (WICED_SLEEP_NOT_ALLOWED sdk) /\
  final poll w = w /\
  emitted poll w = [] /\
  (sleep_answers_distinct sdk = true ->
     is_allowed sdk (result poll w) = false /\
     result poll w <> to_uint32 (WICED_SLEEP_MAX_TIME_TO_SLEEP sdk)).
Proof.
  intros H1 H2 poll. unfold poll, result, final, emitted.
  rewrite (sleep_poll_other_eq sdk b type w H1 H2). cbn.
  repeat split.
  - apply not_allowed_is_not_allowed. assumption.
  - apply sleep_answers_distinct_spec. assumption.
Qed.

Lemma sleep_poll_unknown_type_witness :
  let idle := final (mesh_low_power_led_lpn_sleep sample_sdk lpn_build_20819
                       platform_accepts 50000) boot in
  7 <> WICED_SLEEP_POLL_TIME_TO_SLEEP sample_sdk /\
  7 <> WICED_SLEEP_POLL_SLEEP_PERMISSION sample_sdk /\
  result (mesh_low_power_led_sleep_poll sample_sdk lpn_build_20819 7) idle
    = to_uint32 (WICED_SLEEP_NOT_ALLOWED sample_sdk) /\
  is_allowed sample_sdk
    (result (mesh_low_power_led_sleep_poll sample_sdk lpn_build_20819 7) idle) = false.
Proof.
  assert (H1 : 7 <> WICED_SLEEP_POLL_TIME_TO_SLEEP sample_sdk)
    by (vm_compute; discriminate).
  assert (H2 : 7 <> WICED_SLEEP_POLL_SLEEP_PERMISSION sample_sdk)
    by (vm_compute; discriminate).
  destruct (sleep_poll_unknown_type sample_sdk lpn_build_20819 7
              (final (mesh_low_power_led_lpn_sleep sample_sdk lpn_build_20819
                        platform_accepts 50000) boot) H1 H2)
    as (Hres & _ & _ & Hnever).
  split; [exact H1 |].
  split; [exact H2 |].
  split; [exact Hres |].
  apply Hnever. reflexivity.
Defined.

(** C9. On a low-power-node build the one-time block of
    [mesh_app_init] is guarded by the latch [do_not_init_again]. The
    call that finds the latch clear registers the sleep configuration
    and creates the wake timer, once each, and sets the latch. After
    that, whatever calls the device goes through, every further
    [mesh_app_init] makes neither registration, leaves [app_state] as it
    is and the latch set, and the timer stays created. *)
Theorem mesh_app_init_once
    (sdk : wiced_sdk) (b : build) (env : platform) (is_provisioned : bool)
    (w : world) :
  lpn_enabled b = true ->
  do_not_init_again w = false ->
  let first := mesh_app_init sdk b env is_provisioned in
  let w1 := final first w in
  filter is_registration (emitted first w) =
    [EvSleepConfigure (configured_sleep_config sdk b (lpn_sleep_config (app_state w)));
     EvInitTimer cb_wakeup_timer_cb 0 (WICED_MILLI_SECONDS_TIMER sdk)] /\
  lpn_sleep_config (app_state w1) =
    configured_sleep_config sdk b (lpn_sleep_config (app_state w)) /\
  timer_created (lpn_wake_timer (app_state w1)) = true /\
  do_not_init_again w1 = true /\
  forall (evs : list event) (w' : world) (env' : platform) (is_provisioned' : bool),
    steps sdk b w1 evs w' ->
    let again := mesh_app_init sdk b env' is_provisioned' in
    filter is_registration (emitted again w') = [] /\
    app_state (final again w') = app_state w' /\
    do_not_init_again (final again w') = true /\
    timer_created (lpn_wake_timer (app_state w')) = true.
Proof.
  intros Hlpn Hlatch first w1.
  assert (Hw1 : w1 =
    {| app_state := registered sdk b (app_state w);
       do_not_init_again := true;
       mesh_prop_fw_version := fw_version sdk;
       cfg_device_name := "Low Power LED"%string;
       cfg_appearance := to_uint16 (APPEARANCE_GENERIC_TAG sdk) |}).
  { unfold w1, first. rewrite mesh_app_init_final, Hlpn, Hlatch. reflexivity. }
  split.
  { unfold first. rewrite mesh_app_init_registrations, Hlpn, Hlatch. reflexivity. }
  rewrite Hw1. cbn [app_state do_not_init_again registered lpn_sleep_config
                     lpn_wake_timer timer_created].
  split; [reflexivity |].
  split; [reflexivity |].
  split; [reflexivity |].
  intros evs w' env' is_provisioned' Hsteps.
  pose proof (steps_latch sdk b _ _ _ Hsteps eq_refl) as Hset.
  pose proof (steps_timer_created sdk b _ _ _ Hsteps eq_refl) as Hcreated.
  rewrite mesh_app_init_registrations, mesh_app_init_final.
  cbn [app_state do_not_init_again].
  rewrite Hset, andb_false_r.
  repeat split. exact Hcreated.
Qed.

Lemma mesh_app_init_once_witness :
  let first := mesh_app_init sample_sdk lpn_build_20819 platform_accepts false in
  let again := mesh_app_init sample_sdk lpn_build_20819 platform_accepts true in
  lpn_enabled lpn_build_20819 = true /\
  do_not_init_again boot = false /\
  List.length (filter is_registration (emitted first boot)) = 2%nat /\
  filter is_registration (emitted again (final first boot)) = [].
Proof.
  destruct (mesh_app_init_once sample_sdk lpn_build_20819 platform_accepts false
              boot eq_refl eq_refl) as (Hfirst & _ & _ & _ & Hagain).
  split; [reflexivity |].
  split; [reflexivity |].
  split.
  - cbn zeta. rewrite Hfirst. reflexivity.
  - destruct (Hagain [] _ platform_accepts true
                (steps_refl sample_sdk lpn_build_20819 _)) as (Hnone & _).
    exact Hnone.
Defined.

(* ================================================================== *)
(** ** A wake cycle, run on the sample SDK

    Boot, initialise, ask for 50 s of sleep, poll, let the timer
    expire, poll again. *)

Example wake_cycle :
  let sdk := sample_sdk in
  let b := lpn_build_20819 in
  let permission := mesh_low_power_led_sleep_poll sdk b
                      (WICED_SLEEP_POLL_SLEEP_PERMISSION sdk) in
  let time_to_sleep := mesh_low_power_led_sleep_poll sdk b
                         (WICED_SLEEP_POLL_TIME_TO_SLEEP sdk) in
  let w0 := final (mesh_app_init sdk b platform_accepts true) boot in
  let w1 := final (mesh_low_power_led_lpn_sleep sdk b platform_accepts 50000) w0 in
  let w2 := final (wakeup_timer_cb 0) w1 in
  result permission w0 = 0 /\
  result time_to_sleep w0 = 0 /\
  timer_armed (lpn_wake_timer (app_state w1)) = Some 50000 /\
  result permission w1 = 1 /\
  result time_to_sleep w1 = 4294967295 /\
  timer_armed (lpn_wake_timer (app_state w2)) = None /\
  result permission w2 = 0 /\
  result time_to_sleep w2 = 0.
Proof. vm_compute. repeat split. Qed.

(** The on/off status handler drives the LED whatever the sleep state. *)
Example status_drives_led (element_idx onoff : Z) (w : world) :
  mesh_low_power_led_message_handler sample_sdk element_idx
    (WICED_BT_MESH_ONOFF_STATUS sample_sdk) onoff w
  = (tt, w, [EvLedControlSetOnoff onoff]).
Proof. reflexivity. Qed.

(** On the CYW20835B1 build there is no threshold: 180 s arms the
    timer, and only the unbounded duration leaves it alone. *)
Example sds_build_has_no_threshold :
  let w1 := final (mesh_low_power_led_lpn_sleep sample_sdk lpn_build_20835
                     platform_accepts 180000) boot in
  let w2 := final (mesh_low_power_led_lpn_sleep sample_sdk lpn_build_20835
                     platform_accepts 4294967295) boot in
  timer_armed (lpn_wake_timer (app_state w1)) = Some 180000 /\
  lpn_state (app_state w1) = MESH_LPN_STATE_IDLE /\
  timer_armed (lpn_wake_timer (app_state w2)) = None /\
  lpn_state (app_state w2) = MESH_LPN_STATE_IDLE.
Proof. vm_compute. repeat split. Qed.

(* ================================================================== *)
(** ** Beyond the sleep policy: every branch of the sleep request *)

(** The three ways a sleep request can go, over all builds: the HID-off
    path, a rearm of the wake timer, or (CYW20835B1 with the unbounded
    duration) IDLE with the timer left alone. *)
Lemma lpn_sleep_cases
    (sdk : wiced_sdk) (b : build) (env : platform) (d : Z) (w : world) :
  let call := mesh_low_power_led_lpn_sleep sdk b env d in
  (defined (CYW20835B1 b) = false /\ 120000 <= d /\
   final call w = w /\
   filter is_timer_call (emitted call w) = [] /\
   filter is_hid_off (emitted call w) =
     [EvEnterHidOff d (WICED_GPIO_PIN_BUTTON sdk) 1]) \/
  ((defined (CYW20835B1 b) = false -> d < 120000) /\
   (defined (CYW20835B1 b) = true ->
      d <> to_uint32 (WICED_SLEEP_MAX_TIME_TO_SLEEP sdk)) /\
   final call w = rearmed d w /\
   filter is_timer_call (emitted call w) = [EvStopTimer; EvStartTimer d] /\
   filter is_hid_off (emitted call w) = []) \/
  (defined (CYW20835B1 b) = true /\
   d = to_uint32 (WICED_SLEEP_MAX_TIME_TO_SLEEP sdk) /\
   final call w =
     with_app_state (with_lpn_state MESH_LPN_STATE_IDLE (app_state w)) w /\
   filter is_timer_call (emitted call w) = [] /\
   filter is_hid_off (emitted call w) = []).
Proof.
  cbn zeta. unfold final, emitted.
  destruct (defined (CYW20835B1 b)) eqn:Hchip.
  - destruct (Z.eq_dec d (to_uint32 (WICED_SLEEP_MAX_TIME_TO_SLEEP sdk))) as [Heq | Hne].
    + right; right. subst d.
      rewrite (lpn_sleep_sds_unbounded sdk b env w Hchip). cbn.
      repeat split.
    + right; left.
      rewrite (lpn_sleep_sds sdk b env d w Hchip Hne). cbn.
      repeat split; intros; try discriminate; assumption.
  - destruct (Z_lt_le_dec d 120000) as [Hlt | Hge].
    + right; left.
      rewrite (lpn_sleep_epds sdk b env d w Hchip Hlt). cbn.
      repeat split; intros; try discriminate; assumption.
    + left.
      rewrite (lpn_sleep_hid_off sdk b env d w Hchip Hge). cbn.
      destruct (WICED_SUCCESS sdk =? _); repeat split; assumption.
Qed.

(** A sleep request makes no registration, LED or advertising call. *)
Lemma lpn_sleep_other_calls
    (sdk : wiced_sdk) (b : build) (env : platform) (d : Z) (w : world) :
  let evs := emitted (mesh_low_power_led_lpn_sleep sdk b env d) w in
  filter is_registration evs = [] /\
  filter is_led_call evs = [] /\
  filter is_scan_response evs = [].
Proof.
  cbn zeta. unfold emitted, mesh_low_power_led_lpn_sleep.
  destruct (defined (CYW20835B1 b)).
  - destruct (d =? to_uint32 (WICED_SLEEP_MAX_TIME_TO_SLEEP sdk));
      cbn; repeat split.
  - destruct (d <? 120000).
    + cbn; repeat split.
    + unfold bind, wiced_sleep_enter_hid_off, WICED_BT_TRACE, emit, mret, when; cbn.
      destruct (WICED_SUCCESS sdk =? _); cbn; repeat split.
Qed.

(** X1. On the CYW20835B1 build there is no threshold and no HID-off:
    every sleep request leaves the state IDLE and never asks for
    HID-off. A duration other than the unbounded one rearms the wake
    timer with exactly that duration (stop, then start); the unbounded
    duration makes no timer call and leaves the timer as it was. *)
Theorem lpn_sleep_sds_build
    (sdk : wiced_sdk) (b : build) (env : platform) (d : Z) (w : world) :
  defined (CYW20835B1 b) = true ->
  let call := mesh_low_power_led_lpn_sleep sdk b env d in
  lpn_state (app_state (final call w)) = MESH_LPN_STATE_IDLE /\
  filter is_hid_off (emitted call w) = [] /\
  (d <> to_uint32 (WICED_SLEEP_MAX_TIME_TO_SLEEP sdk) ->
     timer_armed (lpn_wake_timer (app_state (final call w))) = Some d /\
     filter is_timer_call (emitted call w) = [EvStopTimer; EvStartTimer d]) /\
  (d = to_uint32 (WICED_SLEEP_MAX_TIME_TO_SLEEP sdk) ->
     lpn_wake_timer (app_state (final call w)) = lpn_wake_timer (app_state w) /\
     filter is_timer_call (emitted call w) = []).
Proof.
  intros Hchip call. unfold call.
  destruct (lpn_sleep_cases sdk b env d w)
    as [(Hno & _) | [(_ & Hne & Hw & Ht & Hh) | (_ & Heq & Hw & Ht & Hh)]].
  - rewrite Hchip in Hno. discriminate Hno.
  - rewrite Hw, Ht, Hh. cbn.
    repeat split; exfalso; apply (Hne Hchip); assumption.
  - rewrite Hw, Ht, Hh. cbn.
    repeat split; contradiction.
Qed.

Lemma lpn_sleep_sds_build_witness :
  let call := mesh_low_power_led_lpn_sleep sample_sdk lpn_build_20835
                platform_accepts 180000 in
  lpn_state (app_state (final call boot)) = MESH_LPN_STATE_IDLE /\
  timer_armed (lpn_wake_timer (app_state (final call boot))) = Some 180000.
Proof.
  destruct (lpn_sleep_sds_build sample_sdk lpn_build_20835 platform_accepts
              180000 boot eq_refl) as (Hidle & _ & Harm & _).
  split; [exact Hidle |].
  apply Harm. vm_compute. discriminate.
Defined.

(** X2. On every build, for every duration and state, a sleep request
    never both touches the wake timer and asks for HID-off; it asks for
    HID-off at most once and starts the timer at most once. *)
Theorem lpn_sleep_timer_or_hid_off
    (sdk : wiced_sdk) (b : build) (env : platform) (d : Z) (w : world) :
  let evs := emitted (mesh_low_power_led_lpn_sleep sdk b env d) w in
  (filter is_timer_call evs = [] \/ filter is_hid_off evs = []) /\
  (List.length (filter is_hid_off evs) <= 1)%nat /\
  (List.length (filter is_start_timer evs) <= 1)%nat.
Proof.
  cbn zeta.
  assert (Hstart : forall l, filter is_start_timer l =
                             filter is_start_timer (filter is_timer_call l)).
  { induction l as [| e l IH]; [reflexivity |].
    destruct e; cbn; rewrite <- ?IH; reflexivity. }
  rewrite Hstart.
  destruct (lpn_sleep_cases sdk b env d w)
    as [(_ & _ & _ & Ht & Hh) | [(_ & _ & _ & Ht & Hh) | (_ & _ & _ & Ht & Hh)]];
    cbn zeta in Ht, Hh; rewrite Ht, Hh; cbn; repeat split; auto.
Qed.

(** X3. Timer expiry after a sleep request wipes what the request did:
    on every build, for every duration and platform answer, the world
    after the request followed by [wakeup_timer_cb] is the world
    [wakeup_timer_cb] alone would have produced. *)
Theorem wakeup_after_sleep
    (sdk : wiced_sdk) (b : build) (env : platform) (d arg : Z) (w : world) :
  final (wakeup_timer_cb arg) (final (mesh_low_power_led_lpn_sleep sdk b env d) w)
  = final (wakeup_timer_cb arg) w.
Proof.
  destruct (lpn_sleep_cases sdk b env d w)
    as [(_ & _ & Hw & _) | [(_ & _ & Hw & _) | (_ & _ & Hw & _)]];
    cbn zeta in Hw; rewrite Hw; reflexivity.
Qed.

(* ================================================================== *)
(** ** Invariants of runs: timer and state flag *)

Section RunInvariants.

Variable sdk : wiced_sdk.
Variable b : build.

Lemma step_armed_implies_idle (w w' : world) (evs : list event) :
  step sdk b w evs w' -> armed_implies_idle w -> armed_implies_idle w'.
Proof.
  intros Hstep Hw.
  destruct Hstep as [env prov w | idx ev onoff w | env d w Hd | arg w | type w].
  - rewrite mesh_app_init_final. unfold armed_implies_idle in *. cbn.
    destruct (lpn_enabled b && negb (do_not_init_again w)); cbn.
    + intros Habs. contradiction.
    + exact Hw.
  - rewrite message_handler_final. exact Hw.
  - destruct (lpn_sleep_effect sdk b env d w) as (_ & _ & [Heq | Hidle]).
    + rewrite Heq. exact Hw.
    + intros _. exact Hidle.
  - intros Habs. cbn in Habs. contradiction.
  - rewrite (proj1 (sleep_poll_frame sdk b type w)). exact Hw.
Qed.

Lemma steps_armed_implies_idle (w w' : world) (evs : list event) :
  steps sdk b w evs w' -> armed_implies_idle w -> armed_implies_idle w'.
Proof.
  intros Hsteps. induction Hsteps as [w | w w1 w2 e1 e2 _ IH Hstep]; intros Hw.
  - exact Hw.
  - eapply step_armed_implies_idle; [exact Hstep | apply IH; exact Hw].
Qed.

(** With the latch set on a threshold build, every call keeps "IDLE
    exactly while the timer runs, and for less than two minutes". *)
Lemma step_idle_iff_armed (w w' : world) (evs : list event) :
  defined (CYW20835B1 b) = false ->
  step sdk b w evs w' ->
  do_not_init_again w = true ->
  idle_iff_armed w -> idle_iff_armed w'.
Proof.
  intros Hchip Hstep Hlatch Hw.
  destruct Hstep as [env prov w | idx ev onoff w | env d w Hd | arg w | type w].
  - rewrite mesh_app_init_final. unfold idle_iff_armed in *. cbn.
    rewrite Hlatch, andb_false_r. exact Hw.
  - rewrite message_handler_final. exact Hw.
  - destruct (lpn_sleep_cases sdk b env d w)
      as [(_ & _ & Heq & _) | [(Hlt & _ & Heq & _) | (Habs & _)]];
      cbn zeta in *.
    + rewrite Heq. exact Hw.
    + rewrite Heq. unfold idle_iff_armed. cbn. split.
      * split; [discriminate | reflexivity].
      * intros d' Hd'. injection Hd' as <-.
        split; [apply Hd | apply Hlt; exact Hchip].
    + rewrite Hchip in Habs. discriminate Habs.
  - unfold idle_iff_armed. cbn. split.
    + split; [discriminate | intros Habs; contradiction].
    + discriminate.
  - rewrite (proj1 (sleep_poll_frame sdk b type w)). exact Hw.
Qed.

Lemma steps_idle_iff_armed (w w' : world) (evs : list event) :
  defined (CYW20835B1 b) = false ->
  steps sdk b w evs w' ->
  do_not_init_again w = true ->
  idle_iff_armed w -> idle_iff_armed w'.
Proof.
  intros Hchip Hsteps.
  induction Hsteps as [w | w w1 w2 e1 e2 Hsteps IH Hstep]; intros Hlatch Hw.
  - exact Hw.
  - eapply step_idle_iff_armed.
    + exact Hchip.
    + exact Hstep.
    + eapply steps_latch; eassumption.
    + apply IH; assumption.
Qed.

End RunInvariants.

(** X4. In every state a run from boot can reach, on every build, the
    wake timer runs only while the state is IDLE; so while the timer
    runs the power manager is told it may sleep: SLEEP_PERMISSION gets
    the build's "allowed" value and TIME_TO_SLEEP the ceiling. *)
Theorem armed_timer_permits_sleep
    (sdk : wiced_sdk) (b : build) (w : world) (d : Z) :
  poll_types_distinct sdk = true ->
  reachable sdk b w ->
  timer_armed (lpn_wake_timer (app_state w)) = Some d ->
  lpn_state (app_state w) = MESH_LPN_STATE_IDLE /\
  result (mesh_low_power_led_sleep_poll sdk b
            (WICED_SLEEP_POLL_SLEEP_PERMISSION sdk)) w = allowed_variant sdk b /\
  result (mesh_low_power_led_sleep_poll sdk b
            (WICED_SLEEP_POLL_TIME_TO_SLEEP sdk)) w
    = to_uint32 (WICED_SLEEP_MAX_TIME_TO_SLEEP sdk).
Proof.
  intros Htypes (name & appearance & evs & Hsteps) Harmed.
  assert (Hidle : lpn_state (app_state w) = MESH_LPN_STATE_IDLE).
  { apply (steps_armed_implies_idle sdk b _ _ _ Hsteps).
    - intros Habs. cbn in Habs. contradiction.
    - rewrite Harmed. discriminate. }
  split; [exact Hidle |].
  unfold result.
  rewrite (sleep_poll_permission_eq sdk b w Htypes), sleep_poll_time_to_sleep_eq.
  rewrite Hidle. split; reflexivity.
Qed.

Lemma armed_timer_permits_sleep_witness :
  let w := final (mesh_low_power_led_lpn_sleep sample_sdk lpn_build_20819
                    platform_accepts 50000) boot in
  timer_armed (lpn_wake_timer (app_state w)) = Some 50000 /\
  result (mesh_low_power_led_sleep_poll sample_sdk lpn_build_20819
            (WICED_SLEEP_POLL_SLEEP_PERMISSION sample_sdk)) w
    = allowed_variant sample_sdk lpn_build_20819.
Proof.
  assert (Hd : is_uint32 50000) by (unfold is_uint32; lia).
  pose proof (reachable_step sample_sdk lpn_build_20819 _ _ _
                (reachable_boot sample_sdk lpn_build_20819)
                (step_lpn_sleep sample_sdk lpn_build_20819 platform_accepts
                   50000 boot Hd)) as Hreach.
  destruct (armed_timer_permits_sleep sample_sdk lpn_build_20819 _ 50000
              eq_refl Hreach eq_refl) as (_ & Hperm & _).
  split; [reflexivity | exact Hperm].
Defined.

(** X5. On a threshold build of a low-power node, in every state
    reached after [mesh_app_init] has run on the booted device, the
    state is IDLE exactly while the wake timer runs, and the timer only
    ever runs with a duration from 0 up to, not including, 120000 ms. *)
Theorem initialised_idle_iff_armed
    (sdk : wiced_sdk) (b : build) (env : platform) (is_provisioned : bool)
    (name : string) (appearance : Z) (evs : list event) (w : world) :
  defined (CYW20835B1 b) = false ->
  lpn_enabled b = true ->
  steps sdk b
    (final (mesh_app_init sdk b env is_provisioned) (boot_world name appearance))
    evs w ->
  (lpn_state (app_state w) = MESH_LPN_STATE_IDLE <->
   timer_armed (lpn_wake_timer (app_state w)) <> None) /\
  (forall d, timer_armed (lpn_wake_timer (app_state w)) = Some d ->
             0 <= d < 120000).
Proof.
  intros Hchip Hlpn Hsteps.
  apply (steps_idle_iff_armed sdk b _ _ _ Hchip Hsteps).
  - rewrite mesh_app_init_final. cbn. exact Hlpn.
  - rewrite mesh_app_init_final, Hlpn. unfold idle_iff_armed. cbn. split.
    + split; [discriminate | intros Habs; contradiction].
    + discriminate.
Qed.

Lemma initialised_idle_iff_armed_witness :
  let w0 := final (mesh_app_init sample_sdk lpn_build_20819 platform_accepts true)
              boot in
  let w := final (mesh_low_power_led_lpn_sleep sample_sdk lpn_build_20819
                    platform_accepts 50000) w0 in
  lpn_state (app_state w) = MESH_LPN_STATE_IDLE <->
  timer_armed (lpn_wake_timer (app_state w)) <> None.
Proof.
  assert (Hd : is_uint32 50000) by (unfold is_uint32; lia).
  pose proof (steps_snoc sample_sdk lpn_build_20819 _ _ _ _ _
                (steps_refl sample_sdk lpn_build_20819
                   (final (mesh_app_init sample_sdk lpn_build_20819
                             platform_accepts true) boot))
                (step_lpn_sleep sample_sdk lpn_build_20819 platform_accepts
                   50000 _ Hd)) as Hrun.
  exact (proj1 (initialised_idle_iff_armed sample_sdk lpn_build_20819
                  platform_accepts true EmptyString 0 _ _ eq_refl eq_refl Hrun)).
Defined.

(** Before initialisation that equivalence can fail in the model:
    a sleep request, then the first [mesh_app_init], leaves the state
    IDLE with a timer that was just created and is not running. *)
Example idle_without_timer_before_init :
  let w1 := final (mesh_low_power_led_lpn_sleep sample_sdk lpn_build_20819
                     platform_accepts 50000) boot in
  let w2 := final (mesh_app_init sample_sdk lpn_build_20819 platform_accepts true) w1 in
  lpn_state (app_state w2) = MESH_LPN_STATE_IDLE /\
  timer_armed (lpn_wake_timer (app_state w2)) = None.
Proof. vm_compute. split; reflexivity. Qed.

(** X6. In every reachable state the two queries of the sleep poll
    agree: TIME_TO_SLEEP is answered "not allowed" exactly when
    SLEEP_PERMISSION is not answered with an "allowed" value. *)
Theorem sleep_polls_agree (sdk : wiced_sdk) (b : build) (w : world) :
  poll_types_distinct sdk = true ->
  sleep_answers_distinct sdk = true ->
  reachable sdk b w ->
  (result (mesh_low_power_led_sleep_poll sdk b
             (WICED_SLEEP_POLL_TIME_TO_SLEEP sdk)) w
     = to_uint32 (WICED_SLEEP_NOT_ALLOWED sdk)
   <->
   is_allowed sdk
     (result (mesh_low_power_led_sleep_poll sdk b
                (WICED_SLEEP_POLL_SLEEP_PERMISSION sdk)) w) = false).
Proof.
  intros Htypes Hdist Hreach. unfold result.
  rewrite (sleep_poll_permission_eq sdk b w Htypes), sleep_poll_time_to_sleep_eq.
  destruct (sleep_answers_distinct_spec sdk Hdist) as (Hmax & _ & _).
  destruct (reachable_lpn_state_named sdk b w Hreach) as [H0 | H1].
  - rewrite H0. cbn. split; intros _.
    + apply not_allowed_is_not_allowed. exact Hdist.
    + reflexivity.
  - rewrite H1. cbn. rewrite allowed_variant_is_allowed. split.
    + intros Heq. exfalso. apply Hmax. symmetry. exact Heq.
    + discriminate.
Qed.

Lemma sleep_polls_agree_witness :
  result (mesh_low_power_led_sleep_poll sample_sdk lpn_build_20819
            (WICED_SLEEP_POLL_TIME_TO_SLEEP sample_sdk)) boot
    = to_uint32 (WICED_SLEEP_NOT_ALLOWED sample_sdk)
  <->
  is_allowed sample_sdk
    (result (mesh_low_power_led_sleep_poll sample_sdk lpn_build_20819
               (WICED_SLEEP_POLL_SLEEP_PERMISSION sample_sdk)) boot) = false.
Proof.
  exact (sleep_polls_agree sample_sdk lpn_build_20819 boot eq_refl eq_refl
           (reachable_boot sample_sdk lpn_build_20819)).
Defined.

(** The agreement of the two queries needs reachability: were
    [lpn_state] ever 2,
    TIME_TO_SLEEP would give the ceiling while SLEEP_PERMISSION says
    "not allowed". *)
Example sleep_polls_disagree_off_range :
  let w := with_app_state (with_lpn_state 2 app_state_zero) boot in
  result (mesh_low_power_led_sleep_poll sample_sdk lpn_build_20819
            (WICED_SLEEP_POLL_TIME_TO_SLEEP sample_sdk)) w = 4294967295 /\
  result (mesh_low_power_led_sleep_poll sample_sdk lpn_build_20819
            (WICED_SLEEP_POLL_SLEEP_PERMISSION sample_sdk)) w = 0.
Proof. vm_compute. split; reflexivity. Qed.

(* ================================================================== *)
(** ** Invariants of runs: registrations, configuration, timer calls *)

Lemma traces_make_no_call (p : event -> bool) (evs : list event) :
  (forall fmt args, p (EvTrace fmt args) = false) ->
  forallb is_trace evs = true -> filter p evs = [].
Proof.
  intros Hp. induction evs as [| e evs IH]; [reflexivity |].
  destruct e; cbn; try discriminate.
  intros Htr. rewrite Hp. apply IH. exact Htr.
Qed.

Lemma message_handler_calls (sdk : wiced_sdk) (element_idx ev onoff : Z) (w : world) :
  let evs := emitted (mesh_low_power_led_message_handler sdk element_idx ev onoff) w in
  filter is_registration evs = [] /\ filter is_timer_call evs = [].
Proof.
  cbn zeta. unfold emitted, mesh_low_power_led_message_handler.
  destruct (ev =? WICED_BT_MESH_ONOFF_STATUS sdk); split; reflexivity.
Qed.

Lemma mesh_app_init_timer_calls
    (sdk : wiced_sdk) (b : build) (env : platform) (is_provisioned : bool)
    (w : world) :
  filter is_timer_call (emitted (mesh_app_init sdk b env is_provisioned) w) = [].
Proof.
  unfold emitted, mesh_app_init, trace_start_reason, init_once, wiced_sleep_configure.
  destruct (wiced_hal_mia_is_reset_reason_por env);
    destruct (nonzero (CYW20819A1 b) && wiced_hal_mia_is_reset_reason_hid_timeout env);
    destruct is_provisioned;
    destruct (defined (NETWORK_FILTER_SERVER_SUPPORTED b));
    destruct (lpn_enabled b);
    destruct (do_not_init_again w) eqn:Hlatch;
    cbn; rewrite ?Hlatch; cbn;
    try destruct (WICED_BT_SUCCESS sdk =? wiced_sleep_configure_result env);
    reflexivity.
Qed.

(** A sleep request writes only the timer and the state flag. *)
Lemma lpn_sleep_keeps
    (sdk : wiced_sdk) (b : build) (env : platform) (d : Z) (w : world) :
  let w' := final (mesh_low_power_led_lpn_sleep sdk b env d) w in
  present_onoff (app_state w') = present_onoff (app_state w) /\
  target_onoff (app_state w') = target_onoff (app_state w) /\
  lpn_sleep_config (app_state w') = lpn_sleep_config (app_state w) /\
  timer_created (lpn_wake_timer (app_state w'))
    = timer_created (lpn_wake_timer (app_state w)) /\
  do_not_init_again w' = do_not_init_again w.
Proof.
  destruct (lpn_sleep_cases sdk b env d w)
    as [(_ & _ & Hw & _) | [(_ & _ & Hw & _) | (_ & _ & Hw & _)]];
    cbn zeta in *; rewrite Hw; repeat split.
Qed.

Section RunTrace.

Variable sdk : wiced_sdk.
Variable b : build.

Lemma step_run_invariant (evs e : list event) (w w' : world) :
  run_invariant sdk b evs w -> step sdk b w e w' ->
  run_invariant sdk b (evs ++ e) w'.
Proof.
  unfold run_invariant. intros (Hp & Ht & Hinv) Hstep.
  rewrite filter_app.
  destruct Hstep as [env prov w | idx ev onoff w | env d w Hd | arg w | type w].
  - rewrite mesh_app_init_registrations, mesh_app_init_final. cbn.
    destruct (do_not_init_again w); cbn.
    + rewrite andb_false_r, app_nil_r. auto.
    + destruct Hinv as (Hreg & Hcfg & Hcr).
      destruct (lpn_enabled b) eqn:Hlpn; cbn.
      * rewrite Hreg, Hcfg. repeat split; assumption.
      * rewrite Hreg. repeat split; assumption.
  - rewrite message_handler_final.
    rewrite (proj1 (message_handler_calls sdk idx ev onoff w)), app_nil_r. auto.
  - destruct (lpn_sleep_keeps sdk b env d w) as (Hp' & Ht' & Hc' & Hcr' & Hl').
    cbn zeta in *.
    rewrite (proj1 (lpn_sleep_other_calls sdk b env d w)), app_nil_r.
    rewrite Hp', Ht', Hc', Hcr', Hl'. auto.
  - cbn. rewrite app_nil_r. auto.
  - destruct (sleep_poll_frame sdk b type w) as [Hw Htr].
    rewrite Hw, (traces_make_no_call is_registration _ (fun _ _ => eq_refl) Htr).
    rewrite app_nil_r. auto.
Qed.

Lemma steps_run_invariant (name : string) (appearance : Z)
    (evs : list event) (w : world) :
  steps sdk b (boot_world name appearance) evs w -> run_invariant sdk b evs w.
Proof.
  remember (boot_world name appearance) as w0 eqn:Hw0.
  intros Hsteps. induction Hsteps as [w | w w1 w2 e1 e2 _ IH Hstep].
  - subst w. unfold run_invariant. cbn. repeat split.
  - eapply step_run_invariant; [apply IH; exact Hw0 | exact Hstep].
Qed.

(** A list without timer calls passes the stop-before-start check. *)
Lemma no_timer_call_stop_before_start (evs : list event) :
  filter is_timer_call evs = [] -> stop_before_each_start evs = true.
Proof.
  induction evs as [| e evs IH]; [reflexivity |].
  destruct e; cbn; try discriminate; exact IH.
Qed.

(** The check is kept by appending: proved for [l1] and for [e :: l1]
    together, as the check looks two events ahead. *)
Lemma stop_before_each_start_app (l2 : list event) :
  stop_before_each_start l2 = true ->
  forall l1,
    (stop_before_each_start l1 = true ->
     stop_before_each_start (l1 ++ l2) = true) /\
    (forall e, stop_before_each_start (e :: l1) = true ->
               stop_before_each_start (e :: l1 ++ l2) = true).
Proof.
  intros H2. induction l1 as [| a l1 [IH1 IH2]].
  - split; [intros _; exact H2 |].
    intros e He. cbn [app].
    destruct e; cbn in He |- *; try discriminate He; try exact H2.
    destruct l2 as [| e2 l2]; [reflexivity |].
    destruct e2; cbn in H2 |- *; try discriminate H2; exact H2.
  - split; [apply IH2 |].
    intros e He. cbn [app].
    destruct e; try discriminate He; try exact (IH2 a He).
    destruct a;
      try (match goal with
           | |- stop_before_each_start (_ :: ?x :: _) = true => exact (IH2 x He)
           end).
    cbn in He |- *. apply IH1. exact He.
Qed.

Lemma step_stop_before_start (w w' : world) (e : list event) :
  step sdk b w e w' -> stop_before_each_start e = true.
Proof.
  intros Hstep.
  destruct Hstep as [env prov w | idx ev onoff w | env d w Hd | arg w | type w].
  - apply no_timer_call_stop_before_start, mesh_app_init_timer_calls.
  - apply no_timer_call_stop_before_start.
    apply (proj2 (message_handler_calls sdk idx ev onoff w)).
  - apply lpn_sleep_stop_before_start.
  - reflexivity.
  - apply no_timer_call_stop_before_start.
    apply traces_make_no_call; [reflexivity |].
    apply (proj2 (sleep_poll_frame sdk b type w)).
Qed.

End RunTrace.

(** X7. Over a whole run from boot, whatever the calls and their order,
    [wiced_sleep_configure] and [wiced_init_timer] are called at most
    once each: the registrations in the emitted trace are none while
    the latch is clear, and exactly the sleep configuration followed by
    the timer once it is set. A build that is not a low-power node
    never sets the latch and never registers. *)
Theorem run_registers_once
    (sdk : wiced_sdk) (b : build) (name : string) (appearance : Z)
    (evs : list event) (w : world) :
  steps sdk b (boot_world name appearance) evs w ->
  filter is_registration evs =
    (if do_not_init_again w then boot_registrations sdk b else []) /\
  (List.length (filter is_registration evs) <= 2)%nat /\
  (lpn_enabled b = false ->
     do_not_init_again w = false /\ filter is_registration evs = []).
Proof.
  intros Hsteps.
  destruct (steps_run_invariant sdk b name appearance evs w Hsteps)
    as (_ & _ & Hinv).
  destruct (do_not_init_again w).
  - destruct Hinv as (Hlpn & Hreg & _). rewrite Hreg.
    split; [reflexivity |]. split; [cbn; lia |].
    intros Hno. rewrite Hno in Hlpn. discriminate Hlpn.
  - destruct Hinv as (Hreg & _). rewrite Hreg.
    split; [reflexivity |]. split; [cbn; lia |].
    intros _. split; reflexivity.
Qed.

Lemma run_registers_once_witness :
  let first := mesh_app_init sample_sdk lpn_build_20819 platform_accepts false in
  let again := mesh_app_init sample_sdk lpn_build_20819 platform_accepts true in
  let w1 := final first boot in
  filter is_registration (([] ++ emitted first boot) ++ emitted again w1)
    = boot_registrations sample_sdk lpn_build_20819.
Proof.
  pose proof (steps_snoc sample_sdk lpn_build_20819 _ _ _ _ _
                (steps_snoc sample_sdk lpn_build_20819 _ _ _ _ _
                   (steps_refl sample_sdk lpn_build_20819 boot)
                   (step_init sample_sdk lpn_build_20819 platform_accepts false boot))
                (step_init sample_sdk lpn_build_20819 platform_accepts true _))
    as Hrun.
  exact (proj1 (run_registers_once sample_sdk lpn_build_20819 EmptyString 0 _ _ Hrun)).
Defined.

(** X8. In every state of a run from boot the on/off fields of
    [app_state] are still 0 (no callback writes them, the status
    handler included), the wake timer is created exactly when the latch
    is set, and the sleep configuration is all zero before and the one
    [mesh_app_init] writes after: permit handler set to the sleep poll,
    wake on the button GPIO. *)
Theorem run_keeps_configuration
    (sdk : wiced_sdk) (b : build) (name : string) (appearance : Z)
    (evs : list event) (w : world) :
  steps sdk b (boot_world name appearance) evs w ->
  present_onoff (app_state w) = 0 /\
  target_onoff (app_state w) = 0 /\
  timer_created (lpn_wake_timer (app_state w)) = do_not_init_again w /\
  lpn_sleep_config (app_state w) =
    (if do_not_init_again w
     then configured_sleep_config sdk b sleep_config_zero
     else sleep_config_zero) /\
  (do_not_init_again w = true ->
     sleep_permit_handler (lpn_sleep_config (app_state w))
       = Some cb_mesh_low_power_led_sleep_poll /\
     device_wake_gpio_num (lpn_sleep_config (app_state w))
       = WICED_GPIO_PIN_BUTTON sdk /\
     device_wake_source (lpn_sleep_config (app_state w))
       = WICED_SLEEP_WAKE_SOURCE_GPIO sdk).
Proof.
  intros Hsteps.
  destruct (steps_run_invariant sdk b name appearance evs w Hsteps)
    as (Hp & Ht & Hinv).
  split; [exact Hp |]. split; [exact Ht |].
  destruct (do_not_init_again w).
  - destruct Hinv as (_ & _ & Hcfg & Hcr). rewrite Hcfg, Hcr.
    repeat split.
  - destruct Hinv as (_ & Hcfg & Hcr). rewrite Hcfg, Hcr.
    repeat split; discriminate.
Qed.

Lemma run_keeps_configuration_witness :
  let w := final (mesh_low_power_led_message_handler sample_sdk 0
                    (WICED_BT_MESH_ONOFF_STATUS sample_sdk) 1)
             (final (mesh_app_init sample_sdk lpn_build_20819 platform_accepts true)
                boot) in
  present_onoff (app_state w) = 0 /\
  sleep_permit_handler (lpn_sleep_config (app_state w))
    = Some cb_mesh_low_power_led_sleep_poll.
Proof.
  pose proof (steps_snoc sample_sdk lpn_build_20819 _ _ _ _ _
                (steps_snoc sample_sdk lpn_build_20819 _ _ _ _ _
                   (steps_refl sample_sdk lpn_build_20819 boot)
                   (step_init sample_sdk lpn_build_20819 platform_accepts true boot))
                (step_message sample_sdk lpn_build_20819 0
                   (WICED_BT_MESH_ONOFF_STATUS sample_sdk) 1 _))
    as Hrun.
  destruct (run_keeps_configuration sample_sdk lpn_build_20819 EmptyString 0 _ _ Hrun)
    as (Hp & _ & _ & _ & Hcfg).
  split; [exact Hp |].
  exact (proj1 (Hcfg eq_refl)).
Defined.

(** X9. Over a whole run, from any state and on every build, every
    [wiced_start_timer] in the emitted trace comes directly after a
    [wiced_stop_timer]: no sequence of calls starts the wake timer
    without stopping it first. *)
Theorem run_stops_before_each_start
    (sdk : wiced_sdk) (b : build) (w w' : world) (evs : list event) :
  steps sdk b w evs w' -> stop_before_each_start evs = true.
Proof.
  intros Hsteps. induction Hsteps as [w | w w1 w2 e1 e2 _ IH Hstep].
  - reflexivity.
  - apply (stop_before_each_start_app e2).
    + apply (step_stop_before_start sdk b w1 w2 e2 Hstep).
    + exact IH.
Qed.

Lemma run_stops_before_each_start_witness :
  let first := mesh_low_power_led_lpn_sleep sample_sdk lpn_build_20819
                 platform_accepts 50000 in
  let w1 := final first boot in
  stop_before_each_start
    (([] ++ emitted first boot) ++ emitted (wakeup_timer_cb 0) w1) = true.
Proof.
  assert (Hd : is_uint32 50000) by (unfold is_uint32; lia).
  exact (run_stops_before_each_start sample_sdk lpn_build_20819 _ _ _
           (steps_snoc sample_sdk lpn_build_20819 _ _ _ _ _
              (steps_snoc sample_sdk lpn_build_20819 _ _ _ _ _
                 (steps_refl sample_sdk lpn_build_20819 boot)
                 (step_lpn_sleep sample_sdk lpn_build_20819 platform_accepts
                    50000 boot Hd))
              (step_wakeup sample_sdk lpn_build_20819 0 _))).
Defined.

(** The stop-before-start check is not vacuous: it rejects a start
    that follows anything but a stop. *)
Example stop_before_each_start_rejects :
  stop_before_each_start [EvStopTimer; EvTrace "x" []; EvStartTimer 5] = false /\
  stop_before_each_start [EvStartTimer 5] = false /\
  stop_before_each_start [EvStopTimer; EvStartTimer 5; EvStopTimer; EvStartTimer 7]
    = true.
Proof. repeat split. Qed.

(* ================================================================== *)
(** ** The status handler and the rest of mesh_app_init *)

(** X10. The models-library handler never changes a global, so it
    cannot disturb the sleep state or the answers of the sleep poll,
    and what it emits does not depend on the state: one LED call with
    the reported [present_onoff] for an ONOFF_STATUS event, one
    "unknown" trace line and no LED call for any other event. *)
Theorem message_handler_effect
    (sdk : wiced_sdk) (b : build) (element_idx ev onoff type : Z) (w w' : world) :
  let call := mesh_low_power_led_message_handler sdk element_idx ev onoff in
  final call w = w /\
  emitted call w' = emitted call w /\
  (ev = WICED_BT_MESH_ONOFF_STATUS sdk ->
     emitted call w = [EvLedControlSetOnoff onoff]) /\
  (ev <> WICED_BT_MESH_ONOFF_STATUS sdk ->
     emitted call w = [EvTrace "unknown\n" []] /\
     filter is_led_call (emitted call w) = []) /\
  result (mesh_low_power_led_sleep_poll sdk b type) (final call w)
    = result (mesh_low_power_led_sleep_poll sdk b type) w.
Proof.
  cbn zeta. rewrite message_handler_final.
  unfold emitted, mesh_low_power_led_message_handler.
  destruct (ev =? WICED_BT_MESH_ONOFF_STATUS sdk) eqn:Hev.
  - apply Z.eqb_eq in Hev. repeat split; contradiction.
  - apply Z.eqb_neq in Hev. repeat split; contradiction.
Qed.

Section InitDetails.

Variable sdk : wiced_sdk.
Variable b : build.
Variable env : platform.
Variable is_provisioned : bool.

Lemma mesh_app_init_scan_response (w : world) :
  filter is_scan_response (emitted (mesh_app_init sdk b env is_provisioned) w) =
    if is_provisioned then []
    else [EvSetRawScanResponseData 2
            (scan_response_data sdk (build_device_name b)
               (to_uint16 (APPEARANCE_GENERIC_TAG sdk)))].
Proof.
  unfold emitted, mesh_app_init, trace_start_reason, init_once,
    wiced_sleep_configure, build_device_name.
  destruct (wiced_hal_mia_is_reset_reason_por env);
    destruct (nonzero (CYW20819A1 b) && wiced_hal_mia_is_reset_reason_hid_timeout env);
    destruct is_provisioned;
    destruct (defined (NETWORK_FILTER_SERVER_SUPPORTED b));
    destruct (lpn_enabled b);
    destruct (do_not_init_again w) eqn:Hlatch;
    cbn -[to_uint16 scan_response_data]; rewrite ?Hlatch;
    cbn -[to_uint16 scan_response_data];
    try destruct (WICED_BT_SUCCESS sdk =? wiced_sleep_configure_result env);
    reflexivity.
Qed.

Lemma mesh_app_init_configure_failure (w : world) :
  filter is_configure_failure (emitted (mesh_app_init sdk b env is_provisioned) w) =
    if lpn_enabled b && negb (do_not_init_again w) &&
       negb (WICED_BT_SUCCESS sdk =? wiced_sleep_configure_result env)
    then [EvTrace "Sleep Configure failed\r\n" []]
    else [].
Proof.
  unfold emitted, mesh_app_init, trace_start_reason, init_once, wiced_sleep_configure.
  destruct (wiced_hal_mia_is_reset_reason_por env);
    destruct (nonzero (CYW20819A1 b) && wiced_hal_mia_is_reset_reason_hid_timeout env);
    destruct is_provisioned;
    destruct (defined (NETWORK_FILTER_SERVER_SUPPORTED b));
    destruct (lpn_enabled b);
    destruct (do_not_init_again w) eqn:Hlatch;
    cbn; rewrite ?Hlatch; cbn;
    try destruct (WICED_BT_SUCCESS sdk =? wiced_sleep_configure_result env);
    reflexivity.
Qed.

End InitDetails.

(** X11. Running [mesh_app_init] again right away changes no global, on
    every build and from every state; and the globals it leaves depend
    neither on the platform's answers (reset reason, result of the
    sleep configuration) nor on the provisioning flag: those only
    decide which calls are made. *)
Theorem mesh_app_init_idempotent
    (sdk : wiced_sdk) (b : build) (env env' : platform)
    (is_provisioned is_provisioned' : bool) (w : world) :
  final (mesh_app_init sdk b env' is_provisioned')
    (final (mesh_app_init sdk b env is_provisioned) w)
  = final (mesh_app_init sdk b env is_provisioned) w /\
  final (mesh_app_init sdk b env' is_provisioned') w
  = final (mesh_app_init sdk b env is_provisioned) w.
Proof.
  rewrite !mesh_app_init_final. cbn.
  split; [| reflexivity].
  destruct (lpn_enabled b); destruct (do_not_init_again w); reflexivity.
Qed.

(** X12. A refused sleep configuration is traced and not retried. When
    [wiced_sleep_configure] answers anything but WICED_BT_SUCCESS in
    the one-time block, [mesh_app_init] traces "Sleep Configure
    failed", still creates the wake timer and sets the latch, and the
    next [mesh_app_init] makes no registration, whatever the platform
    would answer then. *)
Theorem sleep_configure_failure_not_retried
    (sdk : wiced_sdk) (b : build) (env env' : platform)
    (is_provisioned is_provisioned' : bool) (w : world) :
  lpn_enabled b = true ->
  do_not_init_again w = false ->
  wiced_sleep_configure_result env <> WICED_BT_SUCCESS sdk ->
  let first := mesh_app_init sdk b env is_provisioned in
  filter is_configure_failure (emitted first w)
    = [EvTrace "Sleep Configure failed\r\n" []] /\
  filter is_registration (emitted first w) =
    [EvSleepConfigure (configured_sleep_config sdk b (lpn_sleep_config (app_state w)));
     EvInitTimer cb_wakeup_timer_cb 0 (WICED_MILLI_SECONDS_TIMER sdk)] /\
  timer_created (lpn_wake_timer (app_state (final first w))) = true /\
  do_not_init_again (final first w) = true /\
  filter is_registration
    (emitted (mesh_app_init sdk b env' is_provisioned') (final first w)) = [].
Proof.
  intros Hlpn Hlatch Hfail first. unfold first.
  assert (Hne : (WICED_BT_SUCCESS sdk =? wiced_sleep_configure_result env) = false).
  { apply Z.eqb_neq. intros Heq. apply Hfail. symmetry. exact Heq. }
  rewrite mesh_app_init_configure_failure, !mesh_app_init_registrations,
    mesh_app_init_final.
  cbn [app_state do_not_init_again].
  rewrite Hlpn, Hlatch, Hne. cbn. repeat split.
Qed.

Lemma sleep_configure_failure_not_retried_witness :
  let refuses :=
    {| wiced_hal_mia_is_reset_reason_por := true;
       wiced_hal_mia_is_reset_reason_hid_timeout := false;
       wiced_hal_gpio_get_pin_interrupt_status := fun _ => 0;
       wiced_sleep_configure_result := 1;
       wiced_sleep_enter_hid_off_result := fun _ _ _ => 0 |} in
  let first := mesh_app_init sample_sdk lpn_build_20819 refuses true in
  do_not_init_again (final first boot) = true /\
  filter is_registration
    (emitted (mesh_app_init sample_sdk lpn_build_20819 platform_accepts true)
       (final first boot)) = [].
Proof.
  cbn zeta.
  assert (Hfail : wiced_sleep_configure_result
                    {| wiced_hal_mia_is_reset_reason_por := true;
                       wiced_hal_mia_is_reset_reason_hid_timeout := false;
                       wiced_hal_gpio_get_pin_interrupt_status := fun _ => 0;
                       wiced_sleep_configure_result := 1;
                       wiced_sleep_enter_hid_off_result := fun _ _ _ => 0 |}
                  <> WICED_BT_SUCCESS sample_sdk)
    by (vm_compute; discriminate).
  destruct (sleep_configure_failure_not_retried sample_sdk lpn_build_20819
              _ platform_accepts true true boot eq_refl eq_refl Hfail)
    as (_ & _ & _ & Hset & Hnone).
  split; [exact Hset | exact Hnone].
Defined.

(** X13. The scan response data is set exactly when the device is not
    provisioned. It then has two elements: the complete name, which is
    the name of the build with its length (not what the settings held
    before the call), and the appearance as two bytes that are the
    little-endian encoding of the 16-bit appearance just assigned. *)
Theorem scan_response_of_unprovisioned
    (sdk : wiced_sdk) (b : build) (env : platform) (w : world) :
  let unprovisioned := mesh_app_init sdk b env false in
  exists b0 b1 : Z,
    filter is_scan_response (emitted unprovisioned w) =
      [EvSetRawScanResponseData 2
         [ {| advert_type := BTM_BLE_ADVERT_TYPE_NAME_COMPLETE sdk;
              len := Z.of_nat (String.length (build_device_name b));
              p_data := adv_string (build_device_name b) |};
           {| advert_type := BTM_BLE_ADVERT_TYPE_APPEARANCE sdk;
              len := 2;
              p_data := adv_bytes [b0; b1] |} ]] /\
    0 <= b0 < 256 /\ 0 <= b1 < 256 /\
    b0 + 256 * b1 = cfg_appearance (final unprovisioned w) /\
    cfg_device_name (final unprovisioned w) = build_device_name b /\
    filter is_scan_response (emitted (mesh_app_init sdk b env true) w) = [].
Proof.
  cbn zeta.
  exists (to_uint8 (to_uint16 (APPEARANCE_GENERIC_TAG sdk))),
         (to_uint8 (Z.shiftr (to_uint16 (APPEARANCE_GENERIC_TAG sdk)) 8)).
  rewrite !mesh_app_init_scan_response, mesh_app_init_final.
  cbn [cfg_appearance cfg_device_name].
  set (a := to_uint16 (APPEARANCE_GENERIC_TAG sdk)).
  assert (Ha : 0 <= a < 65536) by (apply Z.mod_pos_bound; lia).
  assert (Hlen : to_uint16 (Z.of_nat (String.length (build_device_name b)))
                 = Z.of_nat (String.length (build_device_name b))).
  { unfold build_device_name. destruct (lpn_enabled b); reflexivity. }
  unfold scan_response_data. rewrite Hlen.
  unfold to_uint8. rewrite Z.shiftr_div_pow2 by lia.
  change (2 ^ 8) with 256.
  repeat split; try (apply Z.mod_pos_bound; lia).
  rewrite (Z.mod_small (a / 256) 256)
    by (split; [apply Z.div_pos; lia | apply Z.div_lt_upper_bound; lia]).
  rewrite (Z.div_mod a 256) at 3 by lia. lia.
Qed.

(** X14. After [mesh_app_init] the firmware revision has 8 bytes. When
    the three SDK version numbers are between 0 and 99, the first six
    are ASCII digits and read back, two by two, as the major, minor and
    revision numbers. *)
Theorem fw_version_digits
    (sdk : wiced_sdk) (b : build) (env : platform) (is_provisioned : bool)
    (w : world) :
  0 <= WICED_SDK_MAJOR_VER sdk <= 99 ->
  0 <= WICED_SDK_MINOR_VER sdk <= 99 ->
  0 <= WICED_SDK_REV_NUMBER sdk <= 99 ->
  exists c0 c1 c2 c3 c4 c5 c6 c7 : Z,
    mesh_prop_fw_version (final (mesh_app_init sdk b env is_provisioned) w)
      = [c0; c1; c2; c3; c4; c5; c6; c7] /\
    (48 <= c0 <= 57 /\ 48 <= c1 <= 57 /\ 48 <= c2 <= 57 /\
     48 <= c3 <= 57 /\ 48 <= c4 <= 57 /\ 48 <= c5 <= 57) /\
    10 * (c0 - 48) + (c1 - 48) = WICED_SDK_MAJOR_VER sdk /\
    10 * (c2 - 48) + (c3 - 48) = WICED_SDK_MINOR_VER sdk /\
    10 * (c4 - 48) + (c5 - 48) = WICED_SDK_REV_NUMBER sdk.
Proof.
  intros Hmaj Hmin Hrev.
  rewrite mesh_app_init_final. cbn [mesh_prop_fw_version]. unfold fw_version.
  do 8 eexists. split; [reflexivity |].
  unfold to_uint8.
  assert (Hdigit : forall v, 0 <= v <= 99 ->
            48 <= (0x30 + Z.quot v 10) mod 256 <= 57 /\
            48 <= (0x30 + Z.rem v 10) mod 256 <= 57 /\
            10 * ((0x30 + Z.quot v 10) mod 256 - 48)
              + ((0x30 + Z.rem v 10) mod 256 - 48) = v).
  { intros v Hv.
    rewrite Z.quot_div_nonneg, Z.rem_mod_nonneg by lia.
    assert (0 <= v / 10 < 10)
      by (split; [apply Z.div_pos; lia | apply Z.div_lt_upper_bound; lia]).
    assert (0 <= v mod 10 < 10) by (apply Z.mod_pos_bound; lia).
    pose proof (Z.div_mod v 10 ltac:(lia)).
    rewrite !Z.mod_small by lia. lia. }
  destruct (Hdigit _ Hmaj) as ((? & ?) & (? & ?) & ?).
  destruct (Hdigit _ Hmin) as ((? & ?) & (? & ?) & ?).
  destruct (Hdigit _ Hrev) as ((? & ?) & (? & ?) & ?).
  repeat split; assumption.
Qed.

Lemma fw_version_digits_witness :
  mesh_prop_fw_version
    (final (mesh_app_init sample_sdk lpn_build_20819 platform_accepts true) boot)
  = [48; 54; 48; 50; 48; 53; 65; 65].
Proof.
  assert (H1 : 0 <= WICED_SDK_MAJOR_VER sample_sdk <= 99) by (cbn; lia).
  assert (H2 : 0 <= WICED_SDK_MINOR_VER sample_sdk <= 99) by (cbn; lia).
  assert (H3 : 0 <= WICED_SDK_REV_NUMBER sample_sdk <= 99) by (cbn; lia).
  destruct (fw_version_digits sample_sdk lpn_build_20819 platform_accepts true
              boot H1 H2 H3) as (c0 & c1 & c2 & c3 & c4 & c5 & c6 & c7 & _).
  reflexivity.
Defined.

(** X15. The last two bytes of the firmware revision are the base64
    characters of two 6-bit values that split the low 12 bits of the
    SDK build number, high half first. *)
Theorem fw_version_build_number
    (sdk : wiced_sdk) (b : build) (env : platform) (is_provisioned : bool)
    (w : world) :
  exists hi lo : Z,
    0 <= hi < 64 /\ 0 <= lo < 64 /\
    64 * hi + lo = WICED_SDK_BUILD_NUMBER sdk mod 4096 /\
    nth 6 (mesh_prop_fw_version (final (mesh_app_init sdk b env is_provisioned) w)) 0
      = to_uint8 (wiced_bt_mesh_base64_encode_6bits sdk hi) /\
    nth 7 (mesh_prop_fw_version (final (mesh_app_init sdk b env is_provisioned) w)) 0
      = to_uint8 (wiced_bt_mesh_base64_encode_6bits sdk lo).
Proof.
  rewrite mesh_app_init_final. cbn [mesh_prop_fw_version]. unfold fw_version.
  cbn [nth].
  set (n := WICED_SDK_BUILD_NUMBER sdk).
  exists (Z.land (to_uint8 (Z.shiftr n 6)) 0x3f), (Z.land (to_uint8 n) 0x3f).
  change 0x3f with (Z.ones 6).
  rewrite !Z.land_ones by lia. unfold to_uint8.
  rewrite Z.shiftr_div_pow2 by lia.
  change (2 ^ 6) with 64.
  assert (Hdiv : (64 | 256)) by (exists 4; reflexivity).
  assert (Hhi : (n / 64) mod 256 mod 64 = (n / 64) mod 64)
    by (apply Z.mod_mod_divide; exact Hdiv).
  assert (Hlo : n mod 256 mod 64 = n mod 64)
    by (apply Z.mod_mod_divide; exact Hdiv).
  rewrite Hhi, Hlo.
  repeat split; try (apply Z.mod_pos_bound; lia).
  pose proof (Z.div_mod n 64 ltac:(lia)).
  pose proof (Z.div_mod (n / 64) 64 ltac:(lia)).
  pose proof (Z.div_mod n 4096 ltac:(lia)).
  pose proof (Z.mod_pos_bound n 64 ltac:(lia)).
  pose proof (Z.mod_pos_bound (n / 64) 64 ltac:(lia)).
  pose proof (Z.mod_pos_bound n 4096 ltac:(lia)).
  assert (Hdd : n / 64 / 64 = n / 4096)
    by (rewrite Z.div_div by lia; reflexivity).
  lia.
Qed.

Lemma mesh_app_init_driver_init
    (sdk : wiced_sdk) (b : build) (env : platform) (is_provisioned : bool)
    (w : world) :
  filter is_driver_init (emitted (mesh_app_init sdk b env is_provisioned) w) =
    [EvLedControlInit (LED_CONTROL_TYPE_ONOFF sdk);
     EvPowerOnoffServerInit MESH_LOW_POWER_LED_ELEMENT_INDEX
       cb_mesh_low_power_led_message_handler TRANSITION_INTERVAL is_provisioned].
Proof.
  unfold emitted, mesh_app_init, trace_start_reason, init_once, wiced_sleep_configure.
  destruct (wiced_hal_mia_is_reset_reason_por env);
    destruct (nonzero (CYW20819A1 b) && wiced_hal_mia_is_reset_reason_hid_timeout env);
    destruct is_provisioned;
    destruct (defined (NETWORK_FILTER_SERVER_SUPPORTED b));
    destruct (lpn_enabled b);
    destruct (do_not_init_again w) eqn:Hlatch;
    cbn; rewrite ?Hlatch; cbn;
    try destruct (WICED_BT_SUCCESS sdk =? wiced_sleep_configure_result env);
    reflexivity.
Qed.

(** X16. The latch guards the sleep registration only. Every
    [mesh_app_init], also one that finds the latch set, initialises the
    LED driver for on/off control and then the power on/off server
    model on element 0 with the application's message handler and the
    100 ms transition interval, once each. *)
Theorem mesh_app_init_repeats_driver_init
    (sdk : wiced_sdk) (b : build) (env env' : platform)
    (is_provisioned is_provisioned' : bool) (w : world) :
  let first := mesh_app_init sdk b env is_provisioned in
  let again := mesh_app_init sdk b env' is_provisioned' in
  filter is_driver_init (emitted first w) =
    [EvLedControlInit (LED_CONTROL_TYPE_ONOFF sdk);
     EvPowerOnoffServerInit 0 cb_mesh_low_power_led_message_handler 100
       is_provisioned] /\
  filter is_driver_init (emitted again (final first w)) =
    [EvLedControlInit (LED_CONTROL_TYPE_ONOFF sdk);
     EvPowerOnoffServerInit 0 cb_mesh_low_power_led_message_handler 100
       is_provisioned'] /\
  (lpn_enabled b = true ->
     filter is_registration (emitted again (final first w)) = []).
Proof.
  cbn zeta. rewrite !mesh_app_init_driver_init.
  split; [reflexivity |]. split; [reflexivity |].
  intros Hlpn.
  rewrite mesh_app_init_registrations, mesh_app_init_final.
  cbn [do_not_init_again]. rewrite Hlpn, orb_true_r. reflexivity.
Qed.

Lemma mesh_app_init_repeats_driver_init_witness :
  let first := mesh_app_init sample_sdk lpn_build_20819 platform_accepts false in
  let again := mesh_app_init sample_sdk lpn_build_20819 platform_accepts true in
  filter is_registration (emitted again (final first boot)) = [] /\
  List.length (filter is_driver_init (emitted again (final first boot))) = 2%nat.
Proof.
  destruct (mesh_app_init_repeats_driver_init sample_sdk lpn_build_20819
              platform_accepts platform_accepts false true boot)
    as (_ & Hdrv & Hreg).
  split; [exact (Hreg eq_refl) |].
  cbn zeta in Hdrv. rewrite Hdrv. reflexivity.
Defined.

(** X17. A sleep request that rearms the timer overrides whatever
    sleep request came before it: on every build, after any first
    request (HID-off path and unbounded duration included) a rearming
    request leaves the world it would have produced on its own, with
    the state IDLE and the timer armed with its duration. *)
Theorem rearm_overrides_previous_request
    (sdk : wiced_sdk) (b : build) (env1 env2 : platform) (d1 d2 : Z) (w : world) :
  rearms sdk b d2 = true ->
  let first := mesh_low_power_led_lpn_sleep sdk b env1 d1 in
  let second := mesh_low_power_led_lpn_sleep sdk b env2 d2 in
  final second (final first w) = final second w /\
  lpn_state (app_state (final second (final first w))) = MESH_LPN_STATE_IDLE /\
  timer_armed (lpn_wake_timer (app_state (final second (final first w))))
    = Some d2.
Proof.
  intros Hre first second.
  assert (Hsecond : forall w0, final second w0 = rearmed d2 w0).
  { intros w0. unfold second, final, rearms in *.
    destruct (defined (CYW20835B1 b)) eqn:Hchip.
    - apply negb_true_iff, Z.eqb_neq in Hre.
      rewrite (lpn_sleep_sds sdk b env2 d2 w0 Hchip Hre). reflexivity.
    - apply Z.ltb_lt in Hre.
      rewrite (lpn_sleep_epds sdk b env2 d2 w0 Hchip Hre). reflexivity. }
  rewrite !Hsecond. unfold first.
  destruct (lpn_sleep_cases sdk b env1 d1 w)
    as [(_ & _ & Hw & _) | [(_ & _ & Hw & _) | (_ & _ & Hw & _)]];
    cbn zeta in Hw; rewrite Hw; repeat split.
Qed.

Lemma rearm_overrides_previous_request_witness :
  let first := mesh_low_power_led_lpn_sleep sample_sdk lpn_build_20835
                 platform_accepts 4294967295 in
  let second := mesh_low_power_led_lpn_sleep sample_sdk lpn_build_20835
                  platform_accepts 180000 in
  rearms sample_sdk lpn_build_20835 180000 = true /\
  final second (final first boot) = final second boot.
Proof.
  split; [reflexivity |].
  exact (proj1 (rearm_overrides_previous_request sample_sdk lpn_build_20835
                  platform_accepts platform_accepts 4294967295 180000 boot
                  eq_refl)).
Defined.
